(** * Audio-Notes: the transcription pipeline, the summarizer and the note store

    A shallow embedding of
      - [src/services/speech_to_text.py]  (module [SpeechToTextService]),
      - [src/services/summarizer.py]      (module [SummarizerService]),
      - [src/services/audio_player.py]    (modules [AudioPlayer] for
        [get_duration] and [Playback] for the player itself),
      - [src/models/note.py], [src/storage/note_storage.py] (module [NoteStorage]),
      - [src/ui/main_window.py]           (module [ProcessAudioThread], [run] only),
      - [src/main.py]                     (module [main], [check_environment] only).

    Python code that raises is embedded in an exception monad over an explicit
    world (files on disk, fields of the service object, and the chronological
    trace of every call that leaves the process).  What the outside answers
    (subprocesses, the file system, the cloud clients) is an [env] of oracles
    which may look at the whole world, so a theorem quantified over [env]
    covers every deterministic behaviour of the outside, flaky ones included. *)

From Stdlib Require Import ZArith String Ascii List Bool Lia.
From Stdlib Require Import Floats.SpecFloat.
From Stdlib Require Import Numbers.DecimalString.
From stdpp Require Import base option list gmap strings.

Local Open Scope string_scope.

(* ===================================================================== *)
(** ** Python strings *)
(* ===================================================================== *)

(** A Python [str] is embedded as a Rocq [string]; a character stands for the
    code point of the same number (0..255). *)
Module Py.

(** [s.startswith(p)] *)
Definition startswith (s p : string) : bool := String.prefix p s.

(** [s.endswith(p)] *)
Definition endswith (s p : string) : bool :=
  let n := String.length s in
  let k := String.length p in
  (k <=? n)%nat && String.eqb (substring (n - k) k s) p.

(** [s[:n]] for a non-negative [n] *)
Fixpoint slice_to (n : nat) (s : string) : string :=
  match n, s with
  | S n', String c s' => String c (slice_to n' s')
  | _, _ => EmptyString
  end.

(** [s.replace(c, '')] for a one-character [c] *)
Fixpoint remove_char (c : ascii) (s : string) : string :=
  match s with
  | EmptyString => EmptyString
  | String a s' =>
      if Ascii.eqb a c then remove_char c s' else String a (remove_char c s')
  end.

(** [c.isspace()]: TAB..CR, FS..US, SPACE, NEL and NBSP. *)
Definition isspace (c : ascii) : bool :=
  let n := N_of_ascii c in
  ((9 <=? n) && (n <=? 13) || (28 <=? n) && (n <=? 32)
   || (n =? 133) || (n =? 160))%N.

Fixpoint lstrip (s : string) : string :=
  match s with
  | EmptyString => EmptyString
  | String c s' => if isspace c then lstrip s' else s
  end.

Fixpoint rstrip (s : string) : string :=
  match s with
  | EmptyString => EmptyString
  | String c s' =>
      match rstrip s' with
      | EmptyString => if isspace c then EmptyString else String c EmptyString
      | r => String c r
      end
  end.

(** [s.strip()] *)
Definition strip (s : string) : string := rstrip (lstrip s).

(** [c.lower()] on one character: A-Z, and the upper-case letters of the
    Latin-1 block (all of 192..222 but the multiplication sign 215). *)
Definition lower_char (c : ascii) : ascii :=
  let n := N_of_ascii c in
  if ((65 <=? n) && (n <=? 90)
      || (192 <=? n) && (n <=? 222) && negb (n =? 215))%N
  then ascii_of_N (n + 32) else c.

(** [s.lower()] *)
Fixpoint lower (s : string) : string :=
  match s with
  | EmptyString => EmptyString
  | String c s' => String (lower_char c) (lower s')
  end.

(** [sep.join(l)] *)
Definition join (sep : string) (l : list string) : string := String.concat sep l.

(** [s.rfind(c)] for a one-character [c]: the last index, or -1. *)
Fixpoint rfind_from (c : ascii) (s : string) (i acc : Z) : Z :=
  match s with
  | EmptyString => acc
  | String a s' => rfind_from c s' (i + 1)%Z (if Ascii.eqb a c then i else acc)
  end.
Definition rfind (c : ascii) (s : string) : Z := rfind_from c s 0%Z (-1)%Z.

(** [s.rsplit(c, 1)]: [Some (head, tail)] around the last [c], [None] when
    [c] does not occur (the list then has the one element [s]). *)
Fixpoint rsplit1 (c : ascii) (s : string) : option (string * string) :=
  match s with
  | EmptyString => None
  | String a s' =>
      match rsplit1 c s' with
      | Some (h, t) => Some (String a h, t)
      | None => if Ascii.eqb a c then Some (EmptyString, s') else None
      end
  end.

(** [s.rsplit(c, 1)[0]] *)
Definition rsplit1_head (c : ascii) (s : string) : string :=
  match rsplit1 c s with
  | Some (h, _) => h
  | None => s
  end.

(** [s[i:]] and [s[:i]] for [0 <= i] *)
Definition slice_from (i : Z) (s : string) : string :=
  substring (Z.to_nat i) (String.length s - Z.to_nat i) s.

(** [all(ch == c for ch in s)] *)
Fixpoint all_char (c : ascii) (s : string) : bool :=
  match s with
  | EmptyString => true
  | String a s' => Ascii.eqb a c && all_char c s'
  end.

(** [c in s] for a one-character [c] *)
Fixpoint contains (c : ascii) (s : string) : bool :=
  match s with
  | EmptyString => false
  | String a s' => Ascii.eqb a c || contains c s'
  end.

(** [os.path.splitext(p)] of [posixpath]: [genericpath._splitext] with
    [sep = '/'], no [altsep], [extsep = '.'].  The extension starts at the
    last dot, provided that dot comes after the last separator and some
    character between the two is not a dot (leading dots of the file name do
    not start an extension). *)
Definition splitext (p : string) : string * string :=
  let sepIndex := rfind "/" p in
  let dotIndex := rfind "." p in
  if (sepIndex <? dotIndex)%Z then
    let filenameIndex := (sepIndex + 1)%Z in
    if all_char "." (substring (Z.to_nat filenameIndex)
                               (Z.to_nat (dotIndex - filenameIndex)) p)
    then (p, EmptyString)
    else (slice_to (Z.to_nat dotIndex) p, slice_from dotIndex p)
  else (p, EmptyString).

(** [os.path.basename(p)] of [posixpath]: [p[p.rfind('/') + 1:]] *)
Definition basename (p : string) : string := slice_from (rfind "/" p + 1) p.

(** [str(n)] for an [int] *)
Definition str_of_int (n : Z) : string := NilZero.string_of_int (Z.to_int n).

(** [repr(s)] of a [str].  The quote is the single one, unless the string has
    a single quote and no double quote.  The quote and the backslash are
    escaped with a backslash; tab, line feed and carriage return are written
    with their letter; the other characters that are not printable (below
    32, 127 to 160, 173) are written as a backslash, [x] and two hexadecimal
    digits. *)
Definition hex_digit (n : N) : ascii :=
  match String.get (N.to_nat n) "0123456789abcdef" with
  | Some c => c
  | None => "0"%char
  end.

Definition backslash : ascii := ascii_of_nat 92.

Definition repr_char (quote c : ascii) : string :=
  let n := N_of_ascii c in
  if Ascii.eqb c quote || Ascii.eqb c backslash then
    String backslash (String c EmptyString)
  else if (n =? 9)%N then String backslash "t"
  else if (n =? 10)%N then String backslash "n"
  else if (n =? 13)%N then String backslash "r"
  else if ((n <? 32) || (127 <=? n) && (n <=? 160) || (n =? 173))%N then
    String backslash
      (String "x" (String (hex_digit (n / 16))
                     (String (hex_digit (n mod 16)) EmptyString)))
  else String c EmptyString.

Fixpoint repr_body (quote : ascii) (s : string) : string :=
  match s with
  | EmptyString => EmptyString
  | String c s' => repr_char quote c ++ repr_body quote s'
  end.

Definition repr (s : string) : string :=
  let double := ascii_of_nat 34 in
  let quote :=
    if contains "'" s && negb (contains double s) then double else "'"%char in
  String quote (repr_body quote s ++ String quote EmptyString).

(** [float]: IEEE 754 binary64 values, as the kernel-independent
    [spec_float] of the Standard Library (mantissa of 53 bits). *)
Definition float := spec_float.

(** [55] compared with a float is [55.0 = 0x1.b8p5]; [0.0]. *)
Definition float_55 : float := S754_finite false (55 * 2 ^ 47) (-47).
Definition float_0 : float := S754_zero false.

(** [a > b] and [a <= b] on floats (both false on NaN) *)
Definition gt (a b : float) : bool := SFltb b a.
Definition le (a b : float) : bool := SFleb a b.

End Py.

(* ===================================================================== *)
(** ** Exceptions and the world *)
(* ===================================================================== *)

(** What [e.stderr.decode()] gives for the captured bytes of a subprocess:
    the text, or a [UnicodeDecodeError] with the given message. *)
Inductive decoded :=
| Decoded (text : string)
| Undecodable (why : string).

(** The exceptions the code can see.  Every one is an instance of Python's
    [Exception], so [except Exception] catches them all. *)
Inductive exn :=
| Exception (msg : string)
    (** [raise Exception(msg)], and an error of an outside library with
        [str(e) = msg] *)
| CalledProcessError (msg : string) (stderr : decoded)
    (** [subprocess.run(check=True)], non-zero exit *)
| UnicodeDecodeError (msg : string)
| UnboundLocalError (var : string)
| IndexError
| ValueError (msg : string).

(** [str(e)] *)
Definition str (e : exn) : string :=
  match e with
  | Exception msg => msg
  | CalledProcessError msg _ => msg
  | UnicodeDecodeError msg => msg
  | UnboundLocalError var =>
      "cannot access local variable '" ++ var
        ++ "' where it is not associated with a value"
  | IndexError => "list index out of range"
  | ValueError msg => msg
  end.

Inductive result (A : Type) :=
| Ok (a : A)
| Raise (e : exn).
Arguments Ok {A} a.
Arguments Raise {A} e.

(** The recognition backend's data. *)
Record SpeechRecognitionAlternative := { transcript : string }.
Record SpeechRecognitionResult :=
  { alternatives : list SpeechRecognitionAlternative }.
Record RecognizeResponse := { results : list SpeechRecognitionResult }.

Inductive AudioEncoding := LINEAR16.

(** [speech.RecognitionConfig(...)]; a keyword the call does not pass is
    [None] / [[]]. *)
Record RecognitionConfig := {
  encoding : AudioEncoding;
  language_code : string;
  alternative_language_codes : list string;
  enable_automatic_punctuation : bool;
  enable_word_time_offsets : option bool;
}.

(** [speech.RecognitionAudio(content=...)] or [(uri=...)] *)
Inductive RecognitionAudio :=
| AudioContent (content : list Byte.byte)
| AudioUri (uri : string).

(** Every call that leaves the process, in the order made. *)
Inductive event :=
| EvSubprocess (argv : list string)
| EvOpenRead (path : string)
| EvRemove (path : string)
| EvStorageClient (project : option string)
| EvGetBucket (name : string)
| EvCreateBucket (name location : string)
| EvUpload (blob_name path : string) (staged : bool)
    (** [staged]: the upload returned, the remote object exists *)
| EvBlobDelete (blob_name : string)
| EvRecognize (config : RecognitionConfig) (audio : RecognitionAudio)
| EvLongRunningRecognize (config : RecognitionConfig) (audio : RecognitionAudio)
| EvOperationResult (timeout : Z)
| EvGenerateContent (prompt : string)
| EvMutagenFile (path : string)
| EvPrint (msg : string).

Record world := {
  files : gset string;          (** the paths that exist on disk *)
  storage_client : bool;        (** [self.storage_client] is set *)
  bucket_name : option string;  (** [self.bucket_name] *)
  trace : list event;
}.

(** How many events of a trace are of a given kind. *)
Definition count_events (kind : event -> bool) (tr : list event) : nat :=
  length (List.filter kind tr).

Definition log (ev : event) (w : world) : world :=
  {| files := files w; storage_client := storage_client w;
     bucket_name := bucket_name w; trace := trace w ++ [ev] |}.

Definition set_files (fs : gset string) (w : world) : world :=
  {| files := fs; storage_client := storage_client w;
     bucket_name := bucket_name w; trace := trace w |}.

Definition set_storage_client (w : world) : world :=
  {| files := files w; storage_client := true;
     bucket_name := bucket_name w; trace := trace w |}.

Definition set_bucket_name (n : string) (w : world) : world :=
  {| files := files w; storage_client := storage_client w;
     bucket_name := Some n; trace := trace w |}.

(** How a [subprocess.run(argv, check=True, capture_output=True)] ends. *)
Inductive proc_result :=
| Exit0 (stdout : string)
| ExitNonZero (msg : string) (stderr : decoded)
    (** raises [CalledProcessError] *)
| LaunchFailed (e : exn).
    (** the executable could not be started ([FileNotFoundError], ...) *)

(** What [MutagenFile(path)] returns: [None], or an object whose [info] may
    carry a [length]. *)
Inductive mutagen_file :=
| MutagenNone
| MutagenInfo (length : option Py.float).

(** The outside.  An oracle that can fail returns [Some e] / [Raise e] for the
    exception it raises. *)
Record env := {
  project_id : option string;       (** [os.getenv('GOOGLE_CLOUD_PROJECT_ID')] *)
  subprocess_run : world -> list string -> proc_result;
  py_float : string -> option Py.float;   (** [float(s)], [None]: [ValueError] *)
  open_read : world -> string -> result (list Byte.byte);
  os_remove : world -> string -> option exn;
  time_time : world -> Z;                 (** [int(time.time())] *)
  storage_Client : world -> option exn;
  get_bucket : world -> string -> option exn;
  create_bucket : world -> string -> string -> option exn;
  upload_from_filename : world -> string -> string -> option exn;
  blob_delete : world -> string -> option exn;
  recognize : world -> RecognitionConfig -> RecognitionAudio
              -> result RecognizeResponse;
  long_running_recognize : world -> RecognitionConfig -> RecognitionAudio
                           -> option exn;
  operation_result : world -> Z -> result RecognizeResponse;
  generate_content : world -> string -> result string;
      (** [model.generate_content(prompt).text] *)
  MutagenFile : world -> string -> result mutagen_file;
  json_format_duration : string -> result string;
      (** [json.loads(s)['format']['duration']], still unconverted *)
}.

(* ===================================================================== *)
(** ** The exception monad over the world *)
(* ===================================================================== *)

Definition M (A : Type) : Type := world -> result A * world.

Definition ret {A} (a : A) : M A := fun w => (Ok a, w).
Definition raise {A} (e : exn) : M A := fun w => (Raise e, w).

Definition bind {A B} (m : M A) (k : A -> M B) : M B :=
  fun w =>
    match m w with
    | (Ok a, w') => k a w'
    | (Raise e, w') => (Raise e, w')
    end.

(** [try: body  except Exception as e: handler(e)] *)
Definition try_except {A} (body : M A) (handler : exn -> M A) : M A :=
  fun w =>
    match body w with
    | (Ok a, w') => (Ok a, w')
    | (Raise e, w') => handler e w'
    end.

Notation "'do' x <- m ; k" := (bind m (fun x => k))
  (at level 10, x name, m at level 100, k at level 200).
Notation "'run' m ; k" := (bind m (fun _ => k))
  (at level 10, m at level 100, k at level 200).

(** [if c: body] with no [else] *)
Definition when (c : bool) (body : M unit) : M unit :=
  if c then body else ret tt.

(** Lifting an oracle's answer. *)
Definition of_result {A} (r : result A) : M A := fun w => (r, w).
Definition of_failure (o : option exn) : M unit :=
  fun w => match o with Some e => (Raise e, w) | None => (Ok tt, w) end.

Definition emit (ev : event) : M unit := fun w => (Ok tt, log ev w).
Definition get_world : M world := fun w => (Ok w, w).

Section Primitives.
Context (E : env).

(** What a successful subprocess leaves on disk: ffmpeg writes its output
    file, the last argument; ffprobe writes nothing. *)
Definition written_by (argv : list string) (w : world) : world :=
  match argv with
  | "ffmpeg" :: _ => set_files ({[List.last argv ""]} ∪ files w) w
  | _ => w
  end.

(** [subprocess.run(argv, check=True, capture_output=True).stdout] *)
Definition run_checked (argv : list string) : M string :=
  fun w =>
    let w' := log (EvSubprocess argv) w in
    match subprocess_run E w argv with
    | Exit0 out => (Ok out, written_by argv w')
    | ExitNonZero msg err => (Raise (CalledProcessError msg err), w')
    | LaunchFailed e => (Raise e, w')
    end.

(** [os.path.exists(path)] *)
Definition os_path_exists (path : string) : M bool :=
  fun w => (Ok (bool_decide (path ∈ files w)), w).

(** [os.remove(path)] *)
Definition remove_file (path : string) : M unit :=
  fun w =>
    let w' := log (EvRemove path) w in
    match os_remove E w path with
    | Some e => (Raise e, w')
    | None => (Ok tt, set_files (files w ∖ {[path]}) w')
    end.

(** [with open(path, 'rb') as f: content = f.read()] *)
Definition read_bytes (path : string) : M (list Byte.byte) :=
  fun w => (open_read E w path, log (EvOpenRead path) w).

(** [float(s)] *)
Definition float_of_str (s : string) : M Py.float :=
  match py_float E s with
  | Some f => ret f
  | None =>
      raise (ValueError ("could not convert string to float: " ++ Py.repr s))
  end.

(** [print(msg)] *)
Definition print (msg : string) : M unit := emit (EvPrint msg).

End Primitives.

(* ===================================================================== *)
(** ** [services/speech_to_text.py] *)
(* ===================================================================== *)

Module SpeechToTextService.

(** The candidate locales of the ["auto"] mode. *)
Definition alternative_languages : list string :=
  ["uk-UA"; "ru-RU"; "es-ES"; "fr-FR"; "de-DE"; "it-IT"; "pt-PT";
   "pl-PL"; "ja-JP"; "zh-CN"; "ko-KR"; "ar-SA"; "hi-IN"; "tr-TR"].

Definition no_speech : string := "No speech detected in audio.".
Definition error_prefix : string := "Error during transcription: ".

(** The two transports of a recognition request. *)
Inductive transport := Inline | Staged.

(** [result.alternatives[0].transcript for result in response.results];
    [alternatives[0]] raises [IndexError] on an empty list. *)
Fixpoint top_transcripts (rs : list SpeechRecognitionResult)
  : result (list string) :=
  match rs with
  | [] => Ok []
  | r :: rs' =>
      match alternatives r with
      | [] => Raise IndexError
      | a :: _ =>
          match top_transcripts rs' with
          | Ok l => Ok (transcript a :: l)
          | Raise e => Raise e
          end
      end
  end.

(** [" ".join(... for result in response.results)]
    (lines 169-172 and 233-236) *)
Definition combine_transcripts (response : RecognizeResponse) : M string :=
  do l <- of_result (top_transcripts (results response));
  ret (Py.join " " l).

(** [transcription if transcription else "No speech detected in audio."]
    (lines 178 and 245) *)
Definition or_no_speech (transcription : string) : string :=
  if String.eqb transcription "" then no_speech else transcription.

(** The test of line 120, [duration > 55], read as a choice of transport. *)
Definition select_transport (duration : Py.float) : transport :=
  if Py.gt duration Py.float_55 then Staged else Inline.

(** [f"{x}"] for an [x] that is a string or [None] *)
Definition fstr (x : option string) : string :=
  match x with Some s => s | None => "None" end.

Section Service.
Context (E : env).

Definition _convert_to_wav (audio_path : string) : M string :=
  let file_ext := Py.lower (snd (Py.splitext audio_path)) in
  if String.eqb file_ext ".wav" then ret audio_path
  else
    let wav_path := Py.rsplit1_head "." audio_path ++ "_converted.wav" in
    try_except
      (run run_checked E
             ["ffmpeg"; "-i"; audio_path; "-ar"; "16000"; "-ac"; "1";
              "-y"; wav_path];
       ret wav_path)
      (fun e =>
         match e with
         | CalledProcessError _ (Decoded err) =>
             raise (Exception ("Failed to convert audio: " ++ err))
         | CalledProcessError _ (Undecodable why) =>
             raise (UnicodeDecodeError why)
         | _ => raise e
         end).

Definition _get_audio_duration (audio_path : string) : M Py.float :=
  try_except
    (do out <- run_checked E
                 ["ffprobe"; "-v"; "error";
                  "-show_entries"; "format=duration";
                  "-of"; "default=noprint_wrappers=1:nokey=1";
                  audio_path];
     float_of_str E (Py.strip out))
    (fun _ => ret Py.float_0).

(** Returns the bucket, which the model identifies with its name. *)
Definition _setup_gcs_bucket : M string :=
  do w <- get_world;
  run when (negb (storage_client w))
        (run emit (EvStorageClient (project_id E));
         run of_failure (storage_Client E w);
         fun w' => (Ok tt, set_storage_client w'));
  do w <- get_world;
  run when (match bucket_name w with
            | None | Some EmptyString => true
            | Some _ => false
            end)
        (fun w' =>
           (Ok tt,
            set_bucket_name (fstr (project_id E) ++ "-audio-transcription")
                            w'));
  do w <- get_world;
  let name := fstr (bucket_name w) in
  try_except
    (run emit (EvGetBucket name);
     run of_failure (get_bucket E w name);
     ret name)
    (fun _ =>
       do w' <- get_world;
       run emit (EvCreateBucket name "us-central1");
       run of_failure (create_bucket E w' name "us-central1");
       ret name).

(** Returns the URI and the blob, which the model identifies with its
    name. *)
Definition _upload_to_gcs (audio_path : string) : M (string * string) :=
  do bucket <- _setup_gcs_bucket;
  let filename := Py.basename audio_path in
  do w <- get_world;
  let blob_name :=
    "audio/" ++ Py.str_of_int (time_time E w) ++ "_" ++ filename in
  let outcome := upload_from_filename E w blob_name audio_path in
  run emit (EvUpload blob_name audio_path
              match outcome with None => true | Some _ => false end);
  run of_failure outcome;
  do w' <- get_world;
  let gcs_uri := "gs://" ++ fstr (bucket_name w') ++ "/" ++ blob_name in
  ret (gcs_uri, blob_name).

Definition _delete_from_gcs (blob : option string) : M unit :=
  try_except
    match blob with
    | Some b =>
        do w <- get_world;
        run emit (EvBlobDelete b);
        of_failure (blob_delete E w b)
    | None => ret tt
    end
    (fun _ => ret tt).

(** The configuration of the synchronous request (lines 131-163). *)
Definition sync_config (language_code : string) : RecognitionConfig :=
  if String.eqb language_code "auto" then
    {| encoding := LINEAR16; language_code := "en-US";
       alternative_language_codes := alternative_languages;
       enable_automatic_punctuation := true;
       enable_word_time_offsets := Some false |}
  else
    {| encoding := LINEAR16; language_code := language_code;
       alternative_language_codes := [];
       enable_automatic_punctuation := true;
       enable_word_time_offsets := Some false |}.

(** The configuration of the long-running request (lines 207-223). *)
Definition long_config (language_code : string) : RecognitionConfig :=
  if String.eqb language_code "auto" then
    {| encoding := LINEAR16; language_code := "en-US";
       alternative_language_codes := alternative_languages;
       enable_automatic_punctuation := true;
       enable_word_time_offsets := None |}
  else
    {| encoding := LINEAR16; language_code := language_code;
       alternative_language_codes := [];
       enable_automatic_punctuation := true;
       enable_word_time_offsets := None |}.

(** [if cond(path) and os.path.exists(path): os.remove(path)] *)
Definition remove_if_exists (cond : bool) (path : string) : M unit :=
  if cond then
    do ex <- os_path_exists path;
    when ex (remove_file E path)
  else ret tt.

(** Lines 204-245: the [try] block of [_transcribe_long_audio] after the
    upload has bound [gcs_uri] and [blob]. *)
Definition long_body (audio_path language_code gcs_uri blob : string)
  : M string :=
  let audio := AudioUri gcs_uri in
  let config := long_config language_code in
  do w <- get_world;
  run emit (EvLongRunningRecognize config audio);
  run of_failure (long_running_recognize E w config audio);
  run print "Waiting for transcription to complete...";
  do w <- get_world;
  run emit (EvOperationResult 300);
  do response <- of_result (operation_result E w 300);
  do transcription <- combine_transcripts response;
  run _delete_from_gcs (Some blob);
  run remove_if_exists (Py.endswith audio_path "_converted.wav") audio_path;
  ret (or_no_speech transcription).

(** Lines 247-255: the handler; [blob] is [None] when the upload raised
    before the assignment of line 202. *)
Definition long_except (audio_path : string) (blob : option string)
           (e : exn) : M string :=
  run _delete_from_gcs blob;
  run remove_if_exists (Py.endswith audio_path "_converted.wav") audio_path;
  ret (error_prefix ++ str e).

Definition _transcribe_long_audio (audio_path language_code : string)
  : M string :=
  fun w =>
    match _upload_to_gcs audio_path w with
    | (Raise e, w1) => long_except audio_path None e w1
    | (Ok (gcs_uri, blob), w1) =>
        try_except (long_body audio_path language_code gcs_uri blob)
                   (long_except audio_path (Some blob)) w1
    end.

(** Lines 123-178: the synchronous recognition. *)
Definition sync_body (audio_path wav_path language_code : string)
  : M string :=
  do content <- read_bytes E wav_path;
  let audio := AudioContent content in
  let config := sync_config language_code in
  do w <- get_world;
  run emit (EvRecognize config audio);
  do response <- of_result (recognize E w config audio);
  do transcription <- combine_transcripts response;
  run remove_if_exists (negb (String.eqb wav_path audio_path)) wav_path;
  ret (or_no_speech transcription).

(** Lines 116-178: the [try] block of [transcribe_audio] after line 114
    has bound [wav_path]. *)
Definition transcribe_body (audio_path wav_path language_code : string)
  : M string :=
  do duration <- _get_audio_duration wav_path;
  match select_transport duration with
  | Staged => _transcribe_long_audio wav_path language_code
  | Inline => sync_body audio_path wav_path language_code
  end.

(** Lines 180-184: the handler.  The local [wav_path] is bound only once
    line 114 has returned: when [_convert_to_wav] raises, the handler's
    first line reads an unbound local and raises [UnboundLocalError]. *)
Definition transcribe_except (audio_path : string)
           (wav_path : option string) (e : exn) : M string :=
  match wav_path with
  | None => raise (UnboundLocalError "wav_path")
  | Some wav_path =>
      run remove_if_exists (negb (String.eqb wav_path audio_path)) wav_path;
      ret (error_prefix ++ str e)
  end.

Definition transcribe_audio (audio_path language_code : string)
  : M string :=
  fun w =>
    match _convert_to_wav audio_path w with
    | (Raise e, w1) => transcribe_except audio_path None e w1
    | (Ok wav_path, w1) =>
        try_except (transcribe_body audio_path wav_path language_code)
                   (transcribe_except audio_path (Some wav_path)) w1
    end.

(** The defaults of the keyword [language_code]. *)
Definition transcribe_audio_default : string := "auto".
Definition transcribe_audio_long_default : string := "en-US".

Definition transcribe_audio_long (audio_path language_code : string)
  : M string :=
  transcribe_audio audio_path language_code.

End Service.
End SpeechToTextService.

(* ===================================================================== *)
(** ** [services/summarizer.py] *)
(* ===================================================================== *)

Module SummarizerService.

Definition nl : string := String (ascii_of_nat 10) EmptyString.

Definition no_summary : string := "No summary available.".
Definition summary_error_prefix : string := "Error generating summary: ".
Definition default_title : string := "Untitled Note".

(** The f-string of lines 31-42. *)
Definition summary_prompt (transcription : string) : string :=
  nl ++ "Please provide a concise, structured summary of the following audio transcription." ++ nl
  ++ "Format the summary with:" ++ nl
  ++ "- Main Topic: [topic]" ++ nl
  ++ "- Key Points: [bullet points of main ideas]" ++ nl
  ++ "- Action Items: [any tasks or actions mentioned, if applicable]" ++ nl
  ++ nl
  ++ "Keep it brief and well-organized." ++ nl
  ++ nl
  ++ "Transcription:" ++ nl
  ++ transcription ++ nl.

(** The f-string of lines 63-69. *)
Definition title_prompt (transcription : string) : string :=
  nl ++ "Generate a very short title (maximum 5-6 words) for this audio note." ++ nl
  ++ "Only return the title, nothing else." ++ nl
  ++ nl
  ++ "Transcription:" ++ nl
  ++ Py.slice_to 500 transcription ++ nl.

(** Line 73: [response.text.strip()] with every double quote (code 34) and
    then every single quote replaced by the empty string. *)
Definition clean_title (text : string) : string :=
  Py.remove_char "'" (Py.remove_char (ascii_of_nat 34) (Py.strip text)).

(** [title[:50] if len(title) > 50 else title] *)
Definition truncate_title (title : string) : string :=
  if (50 <? String.length title)%nat then Py.slice_to 50 title else title.

(** The guard of line 28. *)
Definition skips_summary (transcription : string) : Prop :=
  transcription = ""
  \/ Py.startswith transcription "Error" = true
  \/ transcription = "No speech detected in audio.".

(** The number of calls to the generative backend in a trace. *)
Definition is_backend_call (ev : event) : bool :=
  match ev with EvGenerateContent _ => true | _ => false end.
Definition backend_calls (tr : list event) : nat := count_events is_backend_call tr.

Section Service.
Context (E : env).

(** [self.model.generate_content(prompt).text] *)
Definition generate_text (prompt : string) : M string :=
  do w <- get_world;
  run emit (EvGenerateContent prompt);
  of_result (generate_content E w prompt).

Definition summarize (transcription : string) : M string :=
  if String.eqb transcription ""
     || Py.startswith transcription "Error"
     || String.eqb transcription "No speech detected in audio."
  then ret no_summary
  else
    try_except
      (generate_text (summary_prompt transcription))
      (fun e => ret (summary_error_prefix ++ str e)).

Definition generate_title (transcription : string) : M string :=
  if String.eqb transcription "" || Py.startswith transcription "Error"
  then ret default_title
  else
    try_except
      (do text <- generate_text (title_prompt transcription);
       let title := clean_title text in
       ret (truncate_title title))
      (fun _ => ret default_title).

End Service.
End SummarizerService.

(* ===================================================================== *)
(** ** [services/audio_player.py]: the duration shown with a note *)
(* ===================================================================== *)

Module AudioPlayer.
Section Service.
Context (E : env).

Definition get_duration (audio_path : string) : M Py.float :=
  try_except
    (do w <- get_world;
     run emit (EvMutagenFile audio_path);
     do audio_file <- of_result (MutagenFile E w audio_path);
     match audio_file with
     | MutagenInfo (Some length) => ret length
     | MutagenInfo None | MutagenNone =>
         do out <- run_checked E
                     ["ffprobe"; "-v"; "error";
                      "-show_entries"; "format=duration";
                      "-of"; "json";
                      audio_path];
         do field <- of_result (json_format_duration E out);
         float_of_str E field
     end)
    (fun e =>
       run print ("Error getting duration: " ++ str e);
       ret Py.float_0).

End Service.
End AudioPlayer.

(* ===================================================================== *)
(** ** [models/note.py] and [storage/note_storage.py] *)
(* ===================================================================== *)

Module note.

Record Note := {
  id : string;
  title : string;
  audio_path : string;
  transcription : string;
  summary : string;
  created_at : string;
  duration : Py.float;
}.

End note.

Module NoteStorage.

(** What [notes.json] holds, by what lines 33-36 do with it: nothing (no such
    file); text that is not JSON; JSON on which the comprehension of line 36
    raises [e] (a value that cannot be iterated, or an item from which
    [Note.from_dict] raises); or JSON whose items read as the given notes.
    The last is what [_save_notes] wrote ([to_dict], [json.dump], [json.load]
    and [from_dict] give back the same fields), and with no notes also every
    JSON value that iterates over nothing: an empty list, an empty object, an
    empty text. *)
Inductive notes_file :=
| Absent
| NotJson
| BadShape (e : exn)
| Stored (notes : list note.Note).

Record disk := {
  notes_json : notes_file;
  write_error : option exn;   (** what [open(notes_file, 'w')] raises, if it does *)
}.

Definition _save_notes (notes : list note.Note) (d : disk)
  : result unit * disk :=
  match write_error d with
  | Some e => (Raise e, d)
  | None => (Ok tt, {| notes_json := Stored notes; write_error := None |})
  end.

Definition _load_notes (d : disk) : result (list note.Note) :=
  match notes_json d with
  | Absent | NotJson => Ok []
  | BadShape e => Raise e
  | Stored notes => Ok notes
  end.


Definition same_id (note_id : string) (n : note.Note) : Prop :=
  note.id n = note_id.

#[global] Instance same_id_dec note_id n : Decision (same_id note_id n).
Proof. unfold same_id. apply _. Defined.

Definition get_note_by_id (note_id : string) (d : disk)
  : result (option note.Note) :=
  match _load_notes d with
  | Raise e => Raise e
  | Ok notes => Ok (snd <$> list_find (same_id note_id) notes)
  end.

(** The loop of lines 57-61 assigns [notes[i] = note] at the first [i] whose
    note has the id, and stops. *)
Definition save_note (n : note.Note) (d : disk) : result unit * disk :=
  match _load_notes d with
  | Raise e => (Raise e, d)
  | Ok notes =>
      let notes' :=
        match list_find (same_id (note.id n)) notes with
        | Some (i, _) => <[i:=n]> notes
        | None => (notes ++ [n])%list
        end in
      _save_notes notes' d
  end.

Definition delete_note (note_id : string) (d : disk) : result bool * disk :=
  match _load_notes d with
  | Raise e => (Raise e, d)
  | Ok notes =>
      let initial_length := length notes in
      let notes' := filter (fun n => ¬ same_id note_id n) notes in
      if (length notes' <? initial_length)%nat then
        match _save_notes notes' d with
        | (Ok _, d') => (Ok true, d')
        | (Raise e, d') => (Raise e, d')
        end
      else (Ok false, d)
  end.

End NoteStorage.

(* ===================================================================== *)
(** ** The duration prober as the specification words it *)
(* ===================================================================== *)

Module SpecProber.
Section Prober.
Context (E : env).

(** The primary strategy: the embedded container metadata, no subprocess. *)
Definition read_metadata (path : string) : M Py.float :=
  do w <- get_world;
  run emit (EvMutagenFile path);
  do audio_file <- of_result (MutagenFile E w path);
  match audio_file with
  | MutagenInfo (Some length) => ret length
  | _ => raise (Exception "no duration in the metadata")
  end.

(** The fallback strategy: the media-probing process and its structured
    duration field. *)
Definition probe_process (path : string) : M Py.float :=
  do out <- run_checked E
              ["ffprobe"; "-v"; "error"; "-show_entries"; "format=duration";
               "-of"; "json"; path];
  do field <- of_result (json_format_duration E out);
  float_of_str E field.

(** [probe(path)]: the primary strategy, then the fallback, then [0.0]. *)
Definition probe (path : string) : M Py.float :=
  try_except (read_metadata path)
    (fun _ => try_except (probe_process path) (fun _ => ret Py.float_0)).

End Prober.
End SpecProber.

(* ===================================================================== *)
(** ** The format normalizer as the specification words it *)
(* ===================================================================== *)

Module SpecNormalizer.

(** The command line asks for [value] with the option [flag]. *)
Definition requests (argv : list string) (flag value : string) : Prop :=
  exists before after : list string,
    argv = (before ++ flag :: value :: after)%list.

(** [normalize(path)]: a path already in the canonical container comes back
    unchanged and nothing is created; any other is handed to the transcoder
    with no video stream, mono, 16000 Hz, and an output path made of the same
    stem and the fixed suffix. *)
Definition normalize_as_specified (E : env) (path : string) (w : world)
  : Prop :=
  let out := SpeechToTextService._convert_to_wav E path w in
  if String.eqb (Py.lower (snd (Py.splitext path))) ".wav" then
    out = (Ok path, w)
  else
    exists argv : list string,
      trace (snd out) = (trace w ++ [EvSubprocess argv])%list
      /\ In "-vn" argv
      /\ requests argv "-ac" "1"
      /\ requests argv "-ar" "16000"
      /\ List.last argv "" = fst (Py.splitext path) ++ "_converted.wav".

End SpecNormalizer.

(* ===================================================================== *)
(** ** The note invariant as the specification words it *)
(* ===================================================================== *)

Module SpecNote.

(** Saving [n] over a stored note with the same id leaves a record with the
    original [id] and the original [created_at]. *)
Definition update_keeps_creation (n : note.Note) (d : NoteStorage.disk)
  : Prop :=
  forall old : note.Note,
    NoteStorage.get_note_by_id (note.id n) d = Ok (Some old) ->
    exists kept : note.Note,
      NoteStorage.get_note_by_id (note.id n) (snd (NoteStorage.save_note n d))
      = Ok (Some kept)
      /\ note.id kept = note.id old
      /\ note.created_at kept = note.created_at old.

End SpecNote.

(* ===================================================================== *)
(** ** Result assembly and cleanup as the specification words them *)
(* ===================================================================== *)

Module SpecAssembly.

(** The top-ranked alternative of a segment. *)
Definition top (r : SpeechRecognitionResult) : string :=
  match alternatives r with
  | a :: _ => transcript a
  | [] => ""
  end.

(** Every segment comes with one or more alternatives. *)
Definition well_formed (response : RecognizeResponse) : Prop :=
  Forall (fun r => alternatives r <> []) (results response).

(** The segments' top alternatives in delivery order with single spaces; the
    sentinel for an empty result set. *)
Definition assemble (response : RecognizeResponse) : string :=
  match results response with
  | [] => "No speech detected in audio."
  | rs => Py.join " " (map top rs)
  end.

End SpecAssembly.

Module SpecCleanup.

Definition is_upload_of (blob : string) (ev : event) : bool :=
  match ev with
  | EvUpload b _ true => String.eqb b blob
  | _ => false
  end.

Definition is_delete_of (blob : string) (ev : event) : bool :=
  match ev with
  | EvBlobDelete b => String.eqb b blob
  | _ => false
  end.

(** How often the object [blob] has been staged, and how often its deletion
    has been asked for, in the history of a world. *)
Definition staged (blob : string) (w : world) : nat :=
  count_events (is_upload_of blob) (trace w).
Definition deleted (blob : string) (w : world) : nat :=
  count_events (is_delete_of blob) (trace w).

(** Nothing was staged and no deletion was asked for between two worlds. *)
Definition same_staging (w w' : world) : Prop :=
  forall blob, staged blob w' = staged blob w /\ deleted blob w' = deleted blob w.

(** [1] for the object that was created, if one was, and [0] for every
    other. *)
Definition one_for (created : option string) (blob : string) : nat :=
  match created with
  | Some b => if String.eqb b blob then 1 else 0
  | None => 0
  end.

(** Between two worlds at most one object was staged, [created] when there is
    one, and its deletion was asked for exactly once; no other object was
    staged and no other deletion was asked for. *)
Definition balanced (created : option string) (w w' : world) : Prop :=
  forall blob,
    staged blob w' = (staged blob w + one_for created blob)%nat
    /\ deleted blob w' = (deleted blob w + one_for created blob)%nat.

(** One invocation of [transcribe_audio] from [w]: whatever way it ends, it
    staged at most one object in all and asked to delete exactly that one,
    exactly once; and when line 114 has produced a converted file that is not
    the input, that file is gone. *)
Definition cleans_up (E : env) (audio_path language_code : string)
           (w : world) : Prop :=
  let w' := snd (SpeechToTextService.transcribe_audio
                   E audio_path language_code w) in
  (exists created, balanced created w w')
  /\ (forall wav_path w1,
        SpeechToTextService._convert_to_wav E audio_path w = (Ok wav_path, w1) ->
        wav_path <> audio_path ->
        wav_path ∉ files w').

End SpecCleanup.

(* ===================================================================== *)
(** ** Concrete outsides, for the scenarios and the counterexamples *)
(* ===================================================================== *)

Module Scenario.

Definition float_30 : Py.float := S754_finite false (30 * 2 ^ 48) (-48).
Definition float_90 : Py.float := S754_finite false (90 * 2 ^ 46) (-46).

Definition segment (text : string) : SpeechRecognitionResult :=
  {| alternatives := [ {| transcript := text |} ] |}.

Definition hello : RecognizeResponse :=
  {| results := [segment "Hello world"; segment "this is a test"] |}.

(** An outside in which the file system, the bucket and the upload behave,
    and the rest answers as given. *)
Definition outside (sub : list string -> proc_result) (rm : option exn)
           (resp : result RecognizeResponse) (gen : result string)
           (meta : result mutagen_file) : env :=
  {| project_id := Some "proj";
     subprocess_run := fun _ argv => sub argv;
     py_float := fun s =>
       if String.eqb s "30.0" then Some float_30
       else if String.eqb s "90.0" then Some float_90 else None;
     open_read := fun _ _ => Ok [];
     os_remove := fun _ _ => rm;
     time_time := fun _ => 1700000000%Z;
     storage_Client := fun _ => None;
     get_bucket := fun _ _ => None;
     create_bucket := fun _ _ _ => None;
     upload_from_filename := fun _ _ _ => None;
     blob_delete := fun _ _ => None;
     recognize := fun _ _ _ => resp;
     long_running_recognize := fun _ _ _ => None;
     operation_result := fun _ _ => resp;
     generate_content := fun _ _ => gen;
     MutagenFile := fun _ _ => meta;
     json_format_duration := fun s => Ok s |}.

(** ffmpeg succeeds; ffprobe prints the given duration. *)
Definition tools (probed : string) (argv : list string) : proc_result :=
  match argv with
  | "ffprobe" :: _ => Exit0 (probed ++ SummarizerService.nl)
  | _ => Exit0 ""
  end.

(** ffmpeg exits with a non-zero status and the given diagnostic. *)
Definition ffmpeg_fails (diagnostic : string) (argv : list string)
  : proc_result :=
  match argv with
  | "ffmpeg" :: _ =>
      ExitNonZero "Command returned non-zero exit status 1." (Decoded diagnostic)
  | _ => Exit0 "30.0"
  end.

(** Neither tool is installed. *)
Definition no_tools (argv : list string) : proc_result :=
  LaunchFailed (Exception "[Errno 2] No such file or directory").

Definition calm (probed : string) (resp : result RecognizeResponse) : env :=
  outside (tools probed) None resp (Ok "A summary")
          (Ok (MutagenInfo (Some float_30))).

(** A note recorded on the first of May, and the same note as an edit of the
    second of June would rebuild it. *)
Definition recorded : note.Note :=
  {| note.id := "7c9e"; note.title := "Standup";
     note.audio_path := "notes_data/audio/standup.wav";
     note.transcription := "Hello world"; note.summary := "A summary";
     note.created_at := "2025-05-01 09:00:00"; note.duration := float_30 |}.

Definition edited : note.Note :=
  {| note.id := "7c9e"; note.title := "Monday standup";
     note.audio_path := "notes_data/audio/standup.wav";
     note.transcription := "Hello world"; note.summary := "A summary";
     note.created_at := "2025-06-02 18:30:00"; note.duration := float_30 |}.

Definition shelf : NoteStorage.disk :=
  {| NoteStorage.notes_json := NoteStorage.Stored [recorded];
     NoteStorage.write_error := None |}.

(** A fresh service object and the given files on disk. *)
Definition fresh (fs : gset string) : world :=
  {| files := fs; storage_client := false; bucket_name := None; trace := [] |}.

End Scenario.

(* ===================================================================== *)
(** ** [services/audio_player.py]: conversion for playback and the player *)
(* ===================================================================== *)

Module Playback.

(** The fields of an [AudioPlayer] object. *)
Record player := {
  current_file : option string;
  converted_file : option string;
  is_playing : bool;
  is_paused : bool;
}.

(** The calls to [pygame.mixer.music]. *)
Inductive mixer_call :=
| MixerLoad (path : string)
| MixerPlay
| MixerPause
| MixerUnpause
| MixerStop.

(** The player, the calls it has made to the mixer, and the world. *)
Record stage := {
  self : player;
  mixer_calls : list mixer_call;
  os_world : world;
}.

(** What a call to the mixer raises, if it does. *)
Definition pygame := stage -> mixer_call -> option exn.

(** [AudioPlayer.__init__] after [pygame.mixer.init()] *)
Definition init : player :=
  {| current_file := None; converted_file := None;
     is_playing := false; is_paused := false |}.

(** The truth value of a field that is [None] or a string. *)
Definition truthy (x : option string) : bool :=
  match x with
  | None | Some EmptyString => false
  | Some _ => true
  end.

Definition supported_formats : list string := [".mp3"; ".ogg"; ".wav"].

(** The exception monad over the stage: what an operation has done to the
    player stays done when it raises. *)
Definition P (A : Type) : Type := stage -> result A * stage.

Definition pbind {A B} (m : P A) (k : A -> P B) : P B :=
  fun s =>
    match m s with
    | (Ok a, s') => k a s'
    | (Raise e, s') => (Raise e, s')
    end.

Definition ptry {A} (body : P A) (handler : exn -> P A) : P A :=
  fun s =>
    match body s with
    | (Ok a, s') => (Ok a, s')
    | (Raise e, s') => handler e s'
    end.

Definition pret {A} (a : A) : P A := fun s => (Ok a, s).
Definition praise {A} (e : exn) : P A := fun s => (Raise e, s).

(** An operation on the world, run from the player. *)
Definition lift {A} (m : M A) : P A :=
  fun s =>
    let (r, w') := m (os_world s) in
    (r, {| self := self s; mixer_calls := mixer_calls s; os_world := w' |}).

Definition get_self : P player := fun s => (Ok (self s), s).

Definition set_self (f : player -> player) : P unit :=
  fun s =>
    (Ok tt, {| self := f (self s); mixer_calls := mixer_calls s;
               os_world := os_world s |}).

Notation "'act' x <- m ; k" := (pbind m (fun x => k))
  (at level 10, x name, m at level 100, k at level 200).
Notation "'go' m ; k" := (pbind m (fun _ => k))
  (at level 10, m at level 100, k at level 200).

Definition set_current_file (v : option string) (p : player) : player :=
  {| current_file := v; converted_file := converted_file p;
     is_playing := is_playing p; is_paused := is_paused p |}.
Definition set_converted_file (v : option string) (p : player) : player :=
  {| current_file := current_file p; converted_file := v;
     is_playing := is_playing p; is_paused := is_paused p |}.
Definition set_is_playing (v : bool) (p : player) : player :=
  {| current_file := current_file p; converted_file := converted_file p;
     is_playing := v; is_paused := is_paused p |}.
Definition set_is_paused (v : bool) (p : player) : player :=
  {| current_file := current_file p; converted_file := converted_file p;
     is_playing := is_playing p; is_paused := v |}.

Section Service.
Context (E : env) (G : pygame).

(** [pygame.mixer.music.<call>()] *)
Definition mixer (c : mixer_call) : P unit :=
  fun s =>
    let s' := {| self := self s; mixer_calls := mixer_calls s ++ [c];
                 os_world := os_world s |} in
    match G s c with
    | Some e => (Raise e, s')
    | None => (Ok tt, s')
    end.

Definition _convert_for_playback (audio_path : string) : M string :=
  let file_ext := Py.lower (snd (Py.splitext audio_path)) in
  if existsb (String.eqb file_ext) supported_formats then ret audio_path
  else
    let mp3_path := Py.rsplit1_head "." audio_path ++ "_playback.mp3" in
    do cached <- os_path_exists mp3_path;
    if cached then
      run print ("Using existing converted file: " ++ mp3_path);
      ret mp3_path
    else
      run print ("Converting " ++ file_ext ++ " to MP3 for playback...");
      try_except
        (run run_checked E
               ["ffmpeg"; "-i"; audio_path; "-vn"; "-ar"; "44100"; "-ac"; "2";
                "-b:a"; "192k"; "-y"; mp3_path];
         run print ("Conversion successful: " ++ mp3_path);
         ret mp3_path)
        (fun e =>
           match e with
           | CalledProcessError _ (Undecodable why) =>
               raise (UnicodeDecodeError why)
           | CalledProcessError msg (Decoded err) =>
               (* [e.stderr.decode() if e.stderr else str(e)] *)
               let error_msg :=
                 if String.eqb err "" then msg else err in
               run print ("Conversion failed: " ++ error_msg);
               raise (Exception
                        ("Failed to convert audio for playback: " ++ error_msg))
           | _ => raise e
           end).

(** Lines 65-70 of [load]: the previous converted file goes, and a failure
    of [os.remove] is passed over. *)
Definition drop_previous (p : player) : M unit :=
  if truthy (converted_file p)
     && negb (bool_decide (converted_file p = current_file p))
  then
    let previous := default "" (converted_file p) in
    do there <- os_path_exists previous;
    when there (try_except (remove_file E previous) (fun _ => ret tt))
  else ret tt.

Definition load (audio_path : string) : P unit :=
  ptry
    (go lift (print ("Loading audio: " ++ audio_path));
     act there <- lift (os_path_exists audio_path);
     go (if there then pret tt
         else praise (Exception ("Audio file not found: " ++ audio_path)));
     act me <- get_self;
     go lift (drop_previous me);
     act playback_path <- lift (_convert_for_playback audio_path);
     go lift (print ("Loading into pygame: " ++ playback_path));
     go set_self (set_current_file (Some audio_path));
     go set_self (set_converted_file
                    (if String.eqb playback_path audio_path then None
                     else Some playback_path));
     go mixer (MixerLoad playback_path);
     go set_self (set_is_playing false);
     go set_self (set_is_paused false);
     lift (print "Audio loaded successfully"))
    (fun e =>
       go lift (print ("Error in load(): " ++ str e));
       praise (Exception ("Error loading audio: " ++ str e))).

Definition play : P unit :=
  ptry
    (act me <- get_self;
     go (if truthy (current_file me) then pret tt
         else praise (Exception "No audio file loaded"));
     if is_paused me then
       go mixer MixerUnpause;
       go set_self (set_is_paused false);
       set_self (set_is_playing true)
     else
       go mixer MixerPlay;
       set_self (set_is_playing true))
    (fun e =>
       go lift (print ("Error playing audio: " ++ str e));
       go set_self (set_is_playing false);
       praise e).

Definition pause : P unit :=
  act me <- get_self;
  if is_playing me then
    go mixer MixerPause;
    go set_self (set_is_paused true);
    set_self (set_is_playing false)
  else pret tt.

(** The last lines of [stop] look whether the converted file exists and do
    nothing with the answer. *)
Definition stop : P unit :=
  go mixer MixerStop;
  go set_self (set_is_playing false);
  go set_self (set_is_paused false);
  act me <- get_self;
  if truthy (converted_file me) then
    act there <- lift (os_path_exists (default "" (converted_file me)));
    pret tt
  else pret tt.

(** What a user of the player can ask for. *)
Inductive request :=
| Load (audio_path : string)
| Play
| Pause
| Stop.

Definition serve (r : request) : P unit :=
  match r with
  | Load audio_path => load audio_path
  | Play => play
  | Pause => pause
  | Stop => stop
  end.

(** A session: the requests are served one after the other, whatever each of
    them returns or raises (the caller shows the error and goes on). *)
Fixpoint session (rs : list request) (s : stage) : stage :=
  match rs with
  | [] => s
  | r :: rs' => session rs' (snd (serve r s))
  end.

End Service.

(** The paths removed in a trace. *)
Definition removed (tr : list event) : list string :=
  omap (fun ev => match ev with EvRemove p => Some p | _ => None end) tr.

(** The name line 31 gives to the playback copy of a file. *)
Definition copy_of (audio_path : string) : string :=
  Py.rsplit1_head "." audio_path ++ "_playback.mp3".

(** The player is not playing and paused at once. *)
Definition coherent (p : player) : Prop :=
  is_playing p && is_paused p = false.

(** The converted file the player remembers, if any, is a playback copy. *)
Definition remembers_copy (p : player) : Prop :=
  forall c, converted_file p = Some c -> Py.endswith c "_playback.mp3" = true.

(** The runs of ffmpeg in a trace. *)
Definition is_ffmpeg (ev : event) : bool :=
  match ev with
  | EvSubprocess ("ffmpeg" :: _) => true
  | _ => false
  end.

End Playback.

(* ===================================================================== *)
(** ** Kinds of events *)
(* ===================================================================== *)

Module Kind.

(** A call to the object storage or to the long-running recognition. *)
Definition is_storage (ev : event) : bool :=
  match ev with
  | EvStorageClient _ | EvGetBucket _ | EvCreateBucket _ _ | EvUpload _ _ _
  | EvBlobDelete _ | EvLongRunningRecognize _ _ | EvOperationResult _ => true
  | _ => false
  end.

(** A request sent to the recognition backend. *)
Definition is_recognition (ev : event) : bool :=
  match ev with
  | EvRecognize _ _ | EvLongRunningRecognize _ _ => true
  | _ => false
  end.

(** The construction of the storage client. *)
Definition is_client (ev : event) : bool :=
  match ev with
  | EvStorageClient _ => true
  | _ => false
  end.

End Kind.

(* ===================================================================== *)
(** ** [ui/main_window.py]: the processing thread *)
(* ===================================================================== *)

Module ProcessAudioThread.

(** The two signals of the thread. *)
Inductive signal :=
| finished (transcription summary title : string) (duration : Py.float)
| error (msg : string).

Section Thread.
Context (E : env).

(** [run]: [self.finished.emit(...)] or [self.error.emit(str(e))]; the signal
    emitted is the result. *)
Definition run_thread (audio_path custom_name : string) : M signal :=
  try_except
    (do duration <- AudioPlayer.get_duration E audio_path;
     do transcription <-
       SpeechToTextService.transcribe_audio E audio_path
         SpeechToTextService.transcribe_audio_default;
     do summary <- SummarizerService.summarize E transcription;
     do title <-
       (if negb (String.eqb custom_name "") then ret custom_name
        else SummarizerService.generate_title E transcription);
     ret (finished transcription summary title duration))
    (fun e => ret (error (str e))).

End Thread.
End ProcessAudioThread.

(* ===================================================================== *)
(** ** [main.py]: the check of the configuration *)
(* ===================================================================== *)

Module main.

Definition required_vars : list string :=
  ["GOOGLE_APPLICATION_CREDENTIALS"; "GOOGLE_CLOUD_PROJECT_ID"].

(** [os.getenv(var)] is falsy: unset or empty. *)
Definition unset (getenv : string -> option string) (var : string) : bool :=
  match getenv var with
  | None | Some EmptyString => true
  | Some _ => false
  end.

(** [check_environment()], on the environment variables and the files. *)
Definition check_environment (getenv : string -> option string)
           (fs : gset string) : bool * list string :=
  let missing_vars := List.filter (unset getenv) required_vars in
  match missing_vars with
  | _ :: _ => (false, missing_vars)
  | [] =>
      match getenv "GOOGLE_APPLICATION_CREDENTIALS" with
      | Some (String c rest as creds_path) =>
          if bool_decide (creds_path ∈ fs) then (true, [])
          else (false, ["Credentials file not found: " ++ creds_path])
      | _ => (true, [])
      end
  end.

End main.

(* ===================================================================== *)
(** ** More scenarios: a player, a long transcription, a configuration *)
(* ===================================================================== *)

Module Studio.

(** A mixer that accepts every call. *)
Definition quiet_mixer : Playback.pygame := fun _ _ => None.

(** A player just built, with the given files on disk. *)
Definition opening (fs : gset string) : Playback.stage :=
  {| Playback.self := Playback.init;
     Playback.mixer_calls := [];
     Playback.os_world := Scenario.fresh fs |}.

(** A player that plays [talk.mp3]. *)
Definition playing : Playback.stage :=
  {| Playback.self :=
       {| Playback.current_file := Some "talk.mp3";
          Playback.converted_file := None;
          Playback.is_playing := true;
          Playback.is_paused := false |};
     Playback.mixer_calls := [Playback.MixerLoad "talk.mp3"; Playback.MixerPlay];
     Playback.os_world := Scenario.fresh {["talk.mp3"]} |}.

(** A player that has loaded [talk.m4a] through its playback copy. *)
Definition loaded : Playback.stage :=
  {| Playback.self :=
       {| Playback.current_file := Some "talk.m4a";
          Playback.converted_file := Some "talk_playback.mp3";
          Playback.is_playing := false;
          Playback.is_paused := false |};
     Playback.mixer_calls := [Playback.MixerLoad "talk_playback.mp3"];
     Playback.os_world :=
       Scenario.fresh ({["talk.m4a"]} ∪ {["talk_playback.mp3"]}) |}.

(** The backend is out of quota. *)
Definition quota : exn := Exception "429 Quota exceeded".

(** [os.remove] has been called before. *)
Definition is_remove (ev : event) : bool :=
  match ev with
  | EvRemove _ => true
  | _ => false
  end.

(** The outside of [Scenario.calm], except that the first [os.remove] of the
    process raises; the later ones return. *)
Definition removal_fails_once (probed : string)
           (resp : result RecognizeResponse) : env :=
  {| project_id := Some "proj";
     subprocess_run := fun _ argv => Scenario.tools probed argv;
     py_float := fun s =>
       if String.eqb s "30.0" then Some Scenario.float_30
       else if String.eqb s "90.0" then Some Scenario.float_90 else None;
     open_read := fun _ _ => Ok [];
     os_remove := fun w _ =>
       if existsb is_remove (trace w) then None
       else Some (Exception "[Errno 13] Permission denied");
     time_time := fun _ => 1700000000%Z;
     storage_Client := fun _ => None;
     get_bucket := fun _ _ => None;
     create_bucket := fun _ _ _ => None;
     upload_from_filename := fun _ _ _ => None;
     blob_delete := fun _ _ => None;
     recognize := fun _ _ _ => resp;
     long_running_recognize := fun _ _ _ => None;
     operation_result := fun _ _ => resp;
     generate_content := fun _ _ => Ok "A summary";
     MutagenFile := fun _ _ => Ok (MutagenInfo (Some Scenario.float_30));
     json_format_duration := fun s => Ok s |}.

(** Five hundred characters of speech. *)
Definition long_talk : string :=
  String.concat "" (List.repeat "and then " 50 ++ List.repeat "so " 16
                    ++ ["ok"])%list.

(** Both variables are set. *)
Definition configured (var : string) : option string :=
  if String.eqb var "GOOGLE_APPLICATION_CREDENTIALS" then Some "key.json"
  else if String.eqb var "GOOGLE_CLOUD_PROJECT_ID" then Some "proj"
  else None.

End Studio.

(* ===================================================================== *)
(** * Properties *)
(* ===================================================================== *)

(** ** The model on the specification's scenarios *)

Example splitext_mp3 : Py.splitext "a/b.c/song.MP3" = ("a/b.c/song", ".MP3").
Proof. reflexivity. Qed.
Example splitext_nodot : Py.splitext "my.dir/audio" = ("my.dir/audio", "").
Proof. reflexivity. Qed.
Example splitext_hidden : Py.splitext "dir/.hidden" = ("dir/.hidden", "").
Proof. reflexivity. Qed.
Example rsplit_nodot : Py.rsplit1_head "." "my.dir/audio" = "my".
Proof. reflexivity. Qed.
Example strip_ex : Py.strip "  'A  title'  " = "'A  title'".
Proof. reflexivity. Qed.
Example basename_ex : Py.basename "/tmp/x_converted.wav" = "x_converted.wav".
Proof. reflexivity. Qed.
Example str_of_int_ex : Py.str_of_int 1700000000 = "1700000000".
Proof. reflexivity. Qed.
Example repr_plain : Py.repr "N/A" = "'N/A'".
Proof. reflexivity. Qed.
Example repr_single_quote :
  Py.repr "it's"
  = String (ascii_of_nat 34) ("it's" ++ String (ascii_of_nat 34) "").
Proof. reflexivity. Qed.
Example repr_escapes :
  Py.repr (String (ascii_of_nat 9) (String (ascii_of_nat 27) "\"))
  = "'\t\x1b\\'".
Proof. reflexivity. Qed.
Example gt_55_ex :
  (Py.gt Scenario.float_90 Py.float_55, Py.gt Scenario.float_30 Py.float_55,
   Py.gt Py.float_55 Py.float_55, Py.gt Py.float_0 Py.float_55)
  = (true, false, false, false).
Proof. reflexivity. Qed.

(** Scenario A: a 30-second WAV goes inline, two segments are joined. *)
Example scenario_A :
  let out := SpeechToTextService.transcribe_audio
               (Scenario.calm "30.0" (Ok Scenario.hello)) "talk.wav" "auto"
               (Scenario.fresh {["talk.wav"]}) in
  fst out = Ok "Hello world this is a test"
  /\ elements (files (snd out)) = ["talk.wav"]
  /\ map (fun ev => match ev with EvUpload _ _ _ => true | _ => false end)
         (trace (snd out)) = [false; false; false].
Proof. vm_compute. auto. Qed.

(** Scenario B: a 90-second MP3 is converted, staged, recognised, and both
    the blob and the WAV copy are deleted. *)
Example scenario_B :
  let out := SpeechToTextService.transcribe_audio
               (Scenario.calm "90.0" (Ok Scenario.hello)) "talk.mp3" "auto"
               (Scenario.fresh {["talk.mp3"]}) in
  fst out = Ok "Hello world this is a test"
  /\ elements (files (snd out)) = ["talk.mp3"]
  /\ List.last (removelast (trace (snd out))) (EvPrint "")
     = EvBlobDelete "audio/1700000000_talk_converted.wav"
  /\ List.last (trace (snd out)) (EvPrint "") = EvRemove "talk_converted.wav".
Proof. vm_compute. auto. Qed.

(** Scenario C: the backend fails; the sentinel goes through the summarizer
    and the title generator without a call to the generative backend. *)
Example scenario_C :
  let E := Scenario.calm "30.0" (Raise (Exception "503 unavailable")) in
  let out := SpeechToTextService.transcribe_audio E "talk.wav" "auto"
               (Scenario.fresh {["talk.wav"]}) in
  fst out = Ok "Error during transcription: 503 unavailable"
  /\ SummarizerService.summarize E "Error during transcription: 503 unavailable"
       (snd out) = (Ok "No summary available.", snd out)
  /\ SummarizerService.generate_title E
       "Error during transcription: 503 unavailable" (snd out)
     = (Ok "Untitled Note", snd out).
Proof. vm_compute. auto. Qed.

(** ** Strings *)

Section StringFacts.

Lemma slice_to_length (n : nat) (s : string) :
  (String.length (Py.slice_to n s) <= n)%nat.
Proof.
  revert s; induction n as [|n IH]; intros [|c s]; simpl; try lia.
  specialize (IH s). lia.
Qed.

Lemma contains_remove_char_same (c : ascii) (s : string) :
  Py.contains c (Py.remove_char c s) = false.
Proof.
  induction s as [|a s IH]; simpl; [reflexivity|].
  destruct (Ascii.eqb a c) eqn:Hac; simpl; [exact IH|].
  rewrite Hac. exact IH.
Qed.

Lemma contains_remove_char_other (c d : ascii) (s : string) :
  Py.contains c s = false -> Py.contains c (Py.remove_char d s) = false.
Proof.
  induction s as [|a s IH]; simpl; [reflexivity|].
  intros H. apply orb_false_elim in H as [Ha Hs].
  destruct (Ascii.eqb a d); simpl; [auto|].
  rewrite Ha. simpl. auto.
Qed.

Lemma contains_slice_to (c : ascii) (n : nat) (s : string) :
  Py.contains c s = false -> Py.contains c (Py.slice_to n s) = false.
Proof.
  revert s; induction n as [|n IH]; intros [|a s]; simpl; try reflexivity.
  intros H. apply orb_false_elim in H as [Ha Hs].
  rewrite Ha. simpl. auto.
Qed.

Lemma substring_all (s : string) : substring 0 (String.length s) s = s.
Proof. induction s as [|c s IH]; simpl; [reflexivity|]. by rewrite IH. Qed.

Lemma substring_skip (a b : string) :
  substring (String.length a) (String.length b) (a ++ b) = b.
Proof. induction a as [|c a IH]; simpl; [apply substring_all|exact IH]. Qed.

Lemma string_length_app (a b : string) :
  String.length (a ++ b) = (String.length a + String.length b)%nat.
Proof. induction a as [|c a IH]; simpl; [reflexivity|]. by rewrite IH. Qed.

Lemma endswith_app (a b : string) : Py.endswith (a ++ b) b = true.
Proof.
  unfold Py.endswith. rewrite string_length_app.
  replace (String.length a + String.length b - String.length b)%nat
    with (String.length a) by lia.
  rewrite substring_skip, String.eqb_refl.
  apply andb_true_intro; split; [apply Nat.leb_le; lia|reflexivity].
Qed.

(** [rfind] and [rsplit] look at the same last occurrence. *)
Lemma rfind_from_rsplit1 (c : ascii) (s : string) (i acc : Z) :
  Py.rfind_from c s i acc
  = match Py.rsplit1 c s with
    | Some (h, _) => (i + Z.of_nat (String.length h))%Z
    | None => acc
    end.
Proof.
  revert i acc; induction s as [|a s IH]; intros i acc; [reflexivity|].
  cbn [Py.rfind_from Py.rsplit1]. rewrite IH.
  destruct (Py.rsplit1 c s) as [[h t]|].
  - cbn [String.length]. rewrite Nat2Z.inj_succ. lia.
  - destruct (Ascii.eqb a c); cbn [String.length]; [lia|reflexivity].
Qed.

Lemma rsplit1_head_slice (c : ascii) (s h t : string) :
  Py.rsplit1 c s = Some (h, t) -> Py.slice_to (String.length h) s = h.
Proof.
  revert h t; induction s as [|a s IH]; intros h t; simpl; [discriminate|].
  destruct (Py.rsplit1 c s) as [[h' t']|] eqn:Hs.
  - intros [= <- <-]. simpl. f_equal. eauto.
  - destruct (Ascii.eqb a c); [|discriminate]. intros [= <- <-]. reflexivity.
Qed.

Lemma rfind_lower_bound (c : ascii) (s : string) : (-1 <= Py.rfind c s)%Z.
Proof.
  unfold Py.rfind. rewrite rfind_from_rsplit1.
  destruct (Py.rsplit1 c s) as [[h t]|]; lia.
Qed.

(** When [splitext] finds an extension, its root is what [rsplit('.', 1)[0]]
    keeps. *)
Lemma splitext_root_rsplit (p : string) :
  snd (Py.splitext p) <> "" -> Py.rsplit1_head "." p = fst (Py.splitext p).
Proof.
  pose proof (rfind_lower_bound "/" p) as Hsep.
  assert (Hdot : Py.rfind "." p
                 = match Py.rsplit1 "." p with
                   | Some (h, _) => (0 + Z.of_nat (String.length h))%Z
                   | None => (-1)%Z
                   end) by apply rfind_from_rsplit1.
  unfold Py.splitext, Py.rsplit1_head. rewrite Hdot. clear Hdot.
  destruct (Py.rsplit1 "." p) as [[h t]|] eqn:Hs.
  - destruct (_ <? _)%Z; [|intros H; by destruct H].
    destruct (Py.all_char _ _); [intros H; by destruct H|].
    cbn [fst snd]. intros _. rewrite Z.add_0_l, Nat2Z.id. symmetry.
    eapply rsplit1_head_slice; eauto.
  - destruct (Z.ltb_spec (Py.rfind "/" p) (-1)); [lia|].
    intros Hext; by destruct Hext.
Qed.

End StringFacts.

(** ** The deprecated entry point *)

Section Transcription.
Import SpeechToTextService.
Context (E : env).

(** C10.  For every audio path and language code, [transcribe_audio_long]
    gives exactly what [transcribe_audio] gives on the same arguments: the
    same result and the same world afterwards. *)
Theorem transcribe_audio_long_same (audio_path language_code : string)
        (w : world) :
  transcribe_audio_long E audio_path language_code w
  = transcribe_audio E audio_path language_code w.
Proof. reflexivity. Qed.

(** Only the defaults of the omitted keyword differ. *)
Remark defaults_differ : transcribe_audio_long_default <> transcribe_audio_default.
Proof. discriminate. Qed.

(** With the keyword omitted the two entry points send different requests:
    the deprecated one pins the locale [en-US], the unified one lists the
    candidates. *)
Remark omitted_language_differs :
  let E' := Scenario.calm "30.0" (Ok Scenario.hello) in
  let w := Scenario.fresh {["talk.wav"]} in
  trace (snd (transcribe_audio_long E' "talk.wav"
                transcribe_audio_long_default w))
  <> trace (snd (transcribe_audio E' "talk.wav" transcribe_audio_default w)).
Proof. discriminate. Qed.

(** ** The choice of transport *)

Lemma SFcompare_antisym (a b : spec_float) :
  SFcompare b a = option_map CompOpp (SFcompare a b).
Proof.
  destruct a as [sa|sa| |sa ma ea], b as [sb|sb| |sb mb eb]; simpl;
    try destruct sa; try destruct sb; try reflexivity;
    rewrite (Z.compare_antisym ea eb);
    destruct (ea ?= eb)%Z; simpl; try reflexivity;
    rewrite <- (Pos.compare_cont_antisym _ _ Eq); simpl;
    try rewrite CompOpp_involutive; reflexivity.
Qed.

Lemma le_not_gt (a b : Py.float) : Py.le a b = true -> Py.gt a b = false.
Proof.
  unfold Py.le, Py.gt, SFleb, SFltb. rewrite (SFcompare_antisym a b).
  destruct (SFcompare a b) as [[]|]; simpl; congruence.
Qed.

(** The probe of line 117 never raises, runs ffprobe once and nothing else,
    and gives [0.0] whenever the tool fails or prints no number. *)
Lemma _get_audio_duration_total (audio_path : string) (w : world) :
  let argv := ["ffprobe"; "-v"; "error"; "-show_entries"; "format=duration";
               "-of"; "default=noprint_wrappers=1:nokey=1"; audio_path] in
  _get_audio_duration E audio_path w
  = (Ok match subprocess_run E w argv with
        | Exit0 out => default Py.float_0 (py_float E (Py.strip out))
        | _ => Py.float_0
        end,
     log (EvSubprocess argv) w).
Proof.
  unfold _get_audio_duration, try_except, bind, run_checked, float_of_str.
  cbv zeta. destruct (subprocess_run E w _) as [out|msg err|e]; try reflexivity.
  cbn [written_by]. destruct (py_float E (Py.strip out)); reflexivity.
Qed.

(** C2.  For every probed duration [d]: [d <= 55] selects the inline
    transport, the staged transport is selected exactly when [d > 55]; the
    boundary [55.0] and the fail-open [0.0] are inline; and the rest of
    [transcribe_audio] after a probe of [d] is the staged path or the
    synchronous path accordingly. *)
Theorem transport_selection (d : Py.float) :
  (Py.le d Py.float_55 = true -> select_transport d = Inline)
  /\ (select_transport d = Staged <-> Py.gt d Py.float_55 = true)
  /\ select_transport Py.float_55 = Inline
  /\ select_transport Py.float_0 = Inline
  /\ forall (audio_path wav_path language_code : string) (w w1 : world),
       _get_audio_duration E wav_path w = (Ok d, w1) ->
       transcribe_body E audio_path wav_path language_code w
       = match select_transport d with
         | Staged => _transcribe_long_audio E wav_path language_code w1
         | Inline => sync_body E audio_path wav_path language_code w1
         end.
Proof.
  repeat split.
  - intros Hle. unfold select_transport. by rewrite (le_not_gt _ _ Hle).
  - unfold select_transport. destruct (Py.gt d Py.float_55); congruence.
  - unfold select_transport. intros ->. reflexivity.
  - intros audio_path wav_path language_code w w1 Hprobe.
    unfold transcribe_body, bind at 1. rewrite Hprobe.
    by destruct (select_transport d).
Qed.

End Transcription.

(** A 90-second probe selects the staged transport. *)
Lemma transport_selection_witness :
  SpeechToTextService.select_transport Scenario.float_90
  = SpeechToTextService.Staged.
Proof.
  apply (proj2 (proj1 (proj2 (transport_selection
                                (Scenario.calm "90.0" (Ok Scenario.hello))
                                Scenario.float_90)))).
  reflexivity.
Defined.

(** ** The summarizer *)

Section Summaries.
Import SummarizerService.
Context (E : env).

Lemma generate_text_unfold (prompt : string) (w : world) :
  generate_text E prompt w
  = (generate_content E w prompt, log (EvGenerateContent prompt) w).
Proof. reflexivity. Qed.

Lemma skips_summary_guard (transcription : string) :
  skips_summary transcription
  <-> String.eqb transcription ""
      || Py.startswith transcription "Error"
      || String.eqb transcription "No speech detected in audio." = true.
Proof.
  unfold skips_summary.
  rewrite !orb_true_iff, !String.eqb_eq. tauto.
Qed.

(** C5.  An input that is empty, starts with ["Error"] or is the no-speech
    sentinel gives exactly ["No summary available."] and leaves the world as
    it was, so the backend is not called; on every other input on which the
    backend call fails with [e], the result is
    ["Error generating summary: "] followed by [str(e)]. *)
Theorem summarize_short_circuit (transcription : string) (w : world) :
  (skips_summary transcription ->
   summarize E transcription w = (Ok "No summary available.", w)
   /\ backend_calls (trace (snd (summarize E transcription w)))
      = backend_calls (trace w))
  /\ (~ skips_summary transcription ->
      forall e : exn,
        generate_content E w (summary_prompt transcription) = Raise e ->
        fst (summarize E transcription w)
        = Ok ("Error generating summary: " ++ str e)).
Proof.
  split.
  - intros Hskip. apply skips_summary_guard in Hskip.
    unfold summarize. rewrite Hskip. split; reflexivity.
  - intros Hskip e He. unfold summarize.
    destruct (_ || _) eqn:Hguard.
    + exfalso. apply Hskip. by apply skips_summary_guard.
    + unfold try_except. rewrite generate_text_unfold, He. reflexivity.
Qed.

(** The title generator never raises. *)
Lemma generate_title_cases (transcription : string) (w : world) :
  (exists w', generate_title E transcription w = (Ok default_title, w'))
  \/ (exists text w',
        generate_content E w (title_prompt transcription) = Ok text
        /\ generate_title E transcription w
           = (Ok (truncate_title (clean_title text)), w')).
Proof.
  unfold generate_title. destruct (_ || _); [left; by eexists|].
  unfold try_except, bind. rewrite generate_text_unfold.
  destruct (generate_content E w _) as [text|e] eqn:Hgen.
  - right. by exists text, (log (EvGenerateContent (title_prompt transcription)) w).
  - left. by eexists.
Qed.

Lemma truncate_title_length (title : string) :
  (String.length (truncate_title title) <= 50)%nat.
Proof.
  unfold truncate_title. destruct (Nat.ltb_spec 50 (String.length title)).
  - apply slice_to_length.
  - assumption.
Qed.

Lemma truncate_title_contains (c : ascii) (title : string) :
  Py.contains c title = false -> Py.contains c (truncate_title title) = false.
Proof.
  unfold truncate_title. destruct (_ <? _)%nat; [apply contains_slice_to|auto].
Qed.

(** C6.  [generate_title] always returns a string, of at most 50 characters,
    with no double quote (code 34) and no single quote in it; and it is the
    default title whenever the input is empty, starts with ["Error"], or the
    backend call fails. *)
Theorem generate_title_bounded (transcription : string) (w : world) :
  exists (title : string) (w' : world),
    generate_title E transcription w = (Ok title, w')
    /\ (String.length title <= 50)%nat
    /\ Py.contains (ascii_of_nat 34) title = false
    /\ Py.contains "'" title = false
    /\ (transcription = ""
        \/ Py.startswith transcription "Error" = true
        \/ (exists e, generate_content E w (title_prompt transcription) = Raise e)
        -> title = "Untitled Note").
Proof.
  destruct (generate_title_cases transcription w)
    as [[w' Hdef]|(text & w' & Hgen & Hrun)].
  - exists default_title, w'. repeat split; try reflexivity; try done.
    cbn. lia.
  - exists (truncate_title (clean_title text)), w'. split; [exact Hrun|].
    split; [apply truncate_title_length|].
    split; [|split].
    + apply truncate_title_contains, contains_remove_char_other,
        contains_remove_char_same.
    + apply truncate_title_contains, contains_remove_char_same.
    + intros [->|[Herr|[e He]]]; [| |congruence].
      * unfold generate_title in Hrun. cbn in Hrun.
        by injection Hrun as <- _.
      * unfold generate_title in Hrun. rewrite Herr, orb_true_r in Hrun.
        by injection Hrun as <- _.
Qed.

End Summaries.

(** The error sentinel of the transcription is not summarized, and the
    backend is not called. *)
Lemma summarize_short_circuit_witness :
  let E := Scenario.calm "30.0" (Ok Scenario.hello) in
  let w := Scenario.fresh ∅ in
  SummarizerService.summarize E "Error during transcription: x" w
  = (Ok "No summary available.", w)
  /\ SummarizerService.backend_calls
       (trace (snd (SummarizerService.summarize E
                      "Error during transcription: x" w)))
     = SummarizerService.backend_calls (trace w).
Proof.
  intros E w.
  apply (proj1 (summarize_short_circuit E "Error during transcription: x" w)).
  right; left. reflexivity.
Defined.

(** A quoted, over-long answer of the backend is cleaned and cut; a failing
    backend gives the default title. *)
Lemma generate_title_bounded_witness :
  let E := Scenario.outside (Scenario.tools "30.0") None (Ok Scenario.hello)
             (Raise (Exception "quota exceeded")) (Ok MutagenNone) in
  exists title w',
    SummarizerService.generate_title E "Buy milk" (Scenario.fresh ∅)
    = (Ok title, w')
    /\ title = "Untitled Note".
Proof.
  intros E.
  destruct (generate_title_bounded E "Buy milk" (Scenario.fresh ∅))
    as (title & w' & Hrun & _ & _ & _ & Hdefault).
  exists title, w'. split; [exact Hrun|].
  apply Hdefault. right; right. eexists. reflexivity.
Defined.

(** ** The top-level handler of [transcribe_audio] *)

Section Escapes.
Import SpeechToTextService.

(** Whenever the conversion of line 114 raises, whatever it raises, the
    handler of line 180 reads the unbound local [wav_path] and the caller
    gets an [UnboundLocalError] instead of the error string. *)
Lemma transcribe_audio_unbound (E : env) (audio_path language_code : string)
      (w w1 : world) (e : exn) :
  _convert_to_wav E audio_path w = (Raise e, w1) ->
  transcribe_audio E audio_path language_code w
  = (Raise (UnboundLocalError "wav_path"), w1).
Proof. intros Hconv. unfold transcribe_audio. by rewrite Hconv. Qed.

(** C1, at an input on which the code breaks it: ffmpeg rejects an MP3 and
    exits with status 1.  [transcribe_audio] does not return the string
    ["Error during transcription: Failed to convert audio: ..."]; it raises
    [UnboundLocalError] to its caller. *)
Theorem transcribe_audio_raises_on_failed_conversion :
  let E := Scenario.outside
             (Scenario.ffmpeg_fails "talk.mp3: Invalid data found when processing input")
             None (Ok Scenario.hello) (Ok "A summary") (Ok MutagenNone) in
  let w := Scenario.fresh {["talk.mp3"]} in
  fst (_convert_to_wav E "talk.mp3" w)
  = Raise (Exception "Failed to convert audio: talk.mp3: Invalid data found when processing input")
  /\ fst (transcribe_audio E "talk.mp3" "auto" w)
     = Raise (UnboundLocalError "wav_path").
Proof. split; reflexivity. Qed.

End Escapes.

(** ** The format normalizer *)

Section Normalizer.
Import SpeechToTextService.
Context (E : env).

(** C7, as the code has it.  A path whose extension is [.wav] in any case
    comes back unchanged and the world is untouched (no process, no file).
    Any other path makes one run of ffmpeg, with exactly the arguments
    [-i path -ar 16000 -ac 1 -y out]: mono, 16000 Hz, overwrite, and no
    option about a video stream; [out] ends in [_converted.wav] and starts
    with the path up to its last dot, which is the stem whenever the file name
    has an extension.  When ffmpeg exits with 0 the result is [out], which
    then exists; when it exits non-zero with a diagnostic that decodes, the
    result is the exception ["Failed to convert audio: " + diagnostic]. *)
Theorem convert_to_wav_contract (audio_path : string) (w : world) :
  let ext := snd (Py.splitext audio_path) in
  let wav_path := Py.rsplit1_head "." audio_path ++ "_converted.wav" in
  let argv := ["ffmpeg"; "-i"; audio_path; "-ar"; "16000"; "-ac"; "1"; "-y";
               wav_path] in
  (Py.lower ext = ".wav" -> _convert_to_wav E audio_path w = (Ok audio_path, w))
  /\ (Py.lower ext <> ".wav" ->
      Py.endswith wav_path "_converted.wav" = true
      /\ (ext <> "" ->
          wav_path = fst (Py.splitext audio_path) ++ "_converted.wav")
      /\ trace (snd (_convert_to_wav E audio_path w))
         = (trace w ++ [EvSubprocess argv])%list
      /\ (forall out, subprocess_run E w argv = Exit0 out ->
          fst (_convert_to_wav E audio_path w) = Ok wav_path
          /\ wav_path ∈ files (snd (_convert_to_wav E audio_path w)))
      /\ (forall msg err,
            subprocess_run E w argv = ExitNonZero msg (Decoded err) ->
            _convert_to_wav E audio_path w
            = (Raise (Exception ("Failed to convert audio: " ++ err)),
               log (EvSubprocess argv) w))).
Proof.
  intros ext wav_path argv. split.
  - intros Hext. unfold _convert_to_wav. fold ext. rewrite Hext. reflexivity.
  - intros Hext. apply String.eqb_neq in Hext.
    split; [apply endswith_app|].
    split; [intros Hne; unfold wav_path; by rewrite splitext_root_rsplit|].
    unfold _convert_to_wav. fold ext. rewrite Hext. fold wav_path. fold argv.
    unfold try_except, bind, run_checked.
    destruct (subprocess_run E w argv) as [out|msg [err|why]|e] eqn:Hrun.
    + split; [reflexivity|]. split; [|intros ? ? [=]].
      intros _ _. split; [reflexivity|]. cbn. set_solver.
    + split; [reflexivity|]. split; [intros ? [=]|].
      by intros ? ? [= <- <-].
    + split; [reflexivity|]. split; [intros ? [=]|intros ? ? [=]].
    + split; [destruct e as [| ? []| | | |]; reflexivity|].
      split; [intros ? [=]|intros ? ? [=]].
Qed.

End Normalizer.

(** C7 does not hold as stated: for an MP3 the command line has no [-vn]. *)
Lemma convert_to_wav_not_as_specified :
  ~ SpecNormalizer.normalize_as_specified
      (Scenario.calm "30.0" (Ok Scenario.hello)) "talk.mp3" (Scenario.fresh ∅).
Proof.
  unfold SpecNormalizer.normalize_as_specified.
  intros (argv & Htrace & Hvn & _). cbn in Htrace.
  injection Htrace as <-. cbn in Hvn. intuition discriminate.
Qed.

(** Nor is the output path always made of the stem: a path without an
    extension under a directory with a dot loses everything after that dot. *)
Remark convert_to_wav_loses_stem :
  fst (Py.splitext "my.dir/audio") = "my.dir/audio"
  /\ fst (SpeechToTextService._convert_to_wav
            (Scenario.calm "30.0" (Ok Scenario.hello)) "my.dir/audio"
            (Scenario.fresh ∅))
     = Ok "my_converted.wav".
Proof. split; reflexivity. Qed.

(** An upper-case [.WAV] is returned as it is; an [.mp3] that ffmpeg rejects
    raises the conversion error with the diagnostic. *)
Lemma convert_to_wav_contract_witness :
  SpeechToTextService._convert_to_wav
    (Scenario.calm "30.0" (Ok Scenario.hello)) "dir/talk.WAV" (Scenario.fresh ∅)
  = (Ok "dir/talk.WAV", Scenario.fresh ∅).
Proof.
  apply (proj1 (convert_to_wav_contract
                  (Scenario.calm "30.0" (Ok Scenario.hello)) "dir/talk.WAV"
                  (Scenario.fresh ∅))).
  reflexivity.
Defined.

(** ** The duration probers *)

Section Probers.
Import SpeechToTextService.
Context (E : env).

Lemma written_by_ffprobe (args : list string) (w0 : world) :
  written_by ("ffprobe" :: args) w0 = w0.
Proof. reflexivity. Qed.

(** C8, as the code has it.  The prober that routes, [_get_audio_duration],
    reads no metadata: it runs ffprobe once, converts the plain text it
    prints, and gives [0.0] instead of raising.  The metadata comes first only
    in [AudioPlayer.get_duration], the prober of the displayed duration, which
    never raises either: a length in the metadata is returned without any
    subprocess; an exception of the metadata reader gives [0.0] without the
    fallback; no object or no length falls back to ffprobe and the
    [format.duration] field of its JSON output, and to [0.0] when that
    fails. *)
Theorem duration_probers (audio_path : string) (w : world) :
  let argv_text := ["ffprobe"; "-v"; "error"; "-show_entries";
                    "format=duration";
                    "-of"; "default=noprint_wrappers=1:nokey=1"; audio_path] in
  let argv_json := ["ffprobe"; "-v"; "error"; "-show_entries";
                    "format=duration"; "-of"; "json"; audio_path] in
  let w1 := log (EvMutagenFile audio_path) w in
  _get_audio_duration E audio_path w
  = (Ok match subprocess_run E w argv_text with
        | Exit0 out => default Py.float_0 (py_float E (Py.strip out))
        | _ => Py.float_0
        end,
     log (EvSubprocess argv_text) w)
  /\ exists (d : Py.float) (w' : world),
       AudioPlayer.get_duration E audio_path w = (Ok d, w')
       /\ (forall length,
             MutagenFile E w audio_path = Ok (MutagenInfo (Some length)) ->
             d = length /\ w' = w1)
       /\ (forall e,
             MutagenFile E w audio_path = Raise e ->
             d = Py.float_0
             /\ w' = log (EvPrint ("Error getting duration: " ++ str e)) w1)
       /\ (MutagenFile E w audio_path = Ok MutagenNone
           \/ MutagenFile E w audio_path = Ok (MutagenInfo None) ->
           d = match subprocess_run E w1 argv_json with
               | Exit0 out =>
                   match json_format_duration E out with
                   | Ok field => default Py.float_0 (py_float E field)
                   | Raise _ => Py.float_0
                   end
               | _ => Py.float_0
               end
           /\ exists rest,
                trace w' = (trace w1 ++ EvSubprocess argv_json :: rest)%list).
Proof.
  intros argv_text argv_json w1. split; [apply _get_audio_duration_total|].
  unfold AudioPlayer.get_duration, try_except, bind, get_world, emit,
    of_result, print, emit.
  fold w1. destruct (MutagenFile E w audio_path) as [[|[len|]]|e] eqn:Hmeta.
  1, 3: unfold run_checked, float_of_str, of_result;
    rewrite ?written_by_ffprobe; fold argv_json;
    destruct (subprocess_run E w1 argv_json) as [out|msg err|e'];
    [destruct (json_format_duration E out) as [field|e''];
     [destruct (py_float E field)|]| |];
    do 2 eexists; (split; [reflexivity|]);
    (split; [intros ? [=]|]); (split; [intros ? [=]|]);
    intros _; (split; [reflexivity|]); cbn [trace log];
    rewrite <- ?app_assoc; by eexists.
  - exists len, w1. split; [reflexivity|].
    split; [by intros ? [= <-]|]. split; [intros ? [=]|].
    intros [[=]|[=]].
  - exists Py.float_0, (log (EvPrint ("Error getting duration: " ++ str e)) w1).
    split; [reflexivity|]. split; [intros ? [=]|].
    split; [by intros ? [= <-]|]. intros [[=]|[=]].
Qed.

End Probers.

(** C8 does not hold as stated.  With a readable length of 90 seconds in the
    metadata and no ffprobe on the machine, the prober of the specification
    gives 90.0 from the metadata, and the prober that routes gives 0.0 from
    its one subprocess. *)
Lemma routing_prober_not_as_specified :
  let E := Scenario.outside Scenario.no_tools None (Ok Scenario.hello)
             (Ok "A summary") (Ok (MutagenInfo (Some Scenario.float_90))) in
  let w := Scenario.fresh {["talk.wav"]} in
  SpecProber.probe E "talk.wav" w
  = (Ok Scenario.float_90, log (EvMutagenFile "talk.wav") w)
  /\ SpeechToTextService._get_audio_duration E "talk.wav" w
     = (Ok Py.float_0,
        log (EvSubprocess
               ["ffprobe"; "-v"; "error"; "-show_entries"; "format=duration";
                "-of"; "default=noprint_wrappers=1:nokey=1"; "talk.wav"]) w)
  /\ SpeechToTextService._get_audio_duration E "talk.wav" w
     <> SpecProber.probe E "talk.wav" w.
Proof. repeat split. discriminate. Qed.

(** A length in the metadata is what the displayed duration is. *)
Lemma duration_probers_witness :
  let E := Scenario.calm "90.0" (Ok Scenario.hello) in
  exists d w',
    AudioPlayer.get_duration E "talk.wav" (Scenario.fresh ∅) = (Ok d, w')
    /\ d = Scenario.float_30.
Proof.
  intros E.
  destruct (duration_probers E "talk.wav" (Scenario.fresh ∅))
    as (_ & d & w' & Hrun & Hmeta & _).
  exists d, w'. split; [exact Hrun|]. by apply Hmeta.
Defined.

(** ** The note store *)

Section Notes.
Import NoteStorage.

Lemma list_find_insert_same (notes : list note.Note) (n old : note.Note)
      (i : nat) :
  list_find (same_id (note.id n)) notes = Some (i, old) ->
  list_find (same_id (note.id n)) (<[i:=n]> notes) = Some (i, n).
Proof.
  intros (Hlook & Hid & Hfirst)%list_find_Some.
  apply list_find_Some. split; [|split].
  - apply list_lookup_insert_eq. by eapply lookup_lt_Some.
  - reflexivity.
  - intros j y Hj Hlt. rewrite list_lookup_insert_ne in Hj by lia. eauto.
Qed.

(** C9, as the code has it.  [save_note] with the id of a stored note puts
    the given note, whole, in the place of the first stored note with that id:
    the record read back is the given note in every field (no field of the old
    record survives by itself), the id is the old id, [created_at] is the old
    one exactly when the given note carries it, and the other records and
    their number are as before. *)
Theorem save_note_replaces_whole (notes : list note.Note) (n old : note.Note)
        (i : nat) :
  list_find (same_id (note.id n)) notes = Some (i, old) ->
  let d := {| notes_json := Stored notes; write_error := None |} in
  let d' := snd (save_note n d) in
  save_note n d
  = (Ok tt, {| notes_json := Stored (<[i:=n]> notes); write_error := None |})
  /\ get_note_by_id (note.id n) d' = Ok (Some n)
  /\ note.id n = note.id old
  /\ (forall kept, get_note_by_id (note.id n) d' = Ok (Some kept) ->
      (note.created_at kept = note.created_at old
       <-> note.created_at n = note.created_at old))
  /\ length (<[i:=n]> notes) = length notes
  /\ (forall j, j <> i -> (<[i:=n]> notes) !! j = notes !! j).
Proof.
  intros Hfind d d'.
  assert (Hsave : save_note n d
                  = (Ok tt, {| notes_json := Stored (<[i:=n]> notes);
                               write_error := None |})).
  { unfold save_note, d. cbn. by rewrite Hfind. }
  assert (Hget : get_note_by_id (note.id n) d' = Ok (Some n)).
  { unfold d'. rewrite Hsave. unfold get_note_by_id. cbn.
    by rewrite (list_find_insert_same _ _ _ _ Hfind). }
  split; [exact Hsave|]. split; [exact Hget|].
  apply list_find_Some in Hfind as (Hlook & Hid & _).
  split; [by rewrite Hid|]. split; [|split].
  - intros kept Hkept. rewrite Hget in Hkept. by injection Hkept as <-.
  - apply length_insert.
  - intros j Hj. by apply list_lookup_insert_ne.
Qed.

End Notes.

(** C9 does not hold as stated: saving a note with the id of a stored one and
    another [created_at] persists the other [created_at]. *)
Lemma update_does_not_keep_creation :
  ~ SpecNote.update_keeps_creation Scenario.edited Scenario.shelf.
Proof.
  intros H. destruct (H Scenario.recorded eq_refl) as (kept & Hget & _ & Hdate).
  cbn in Hget. injection Hget as <-. discriminate Hdate.
Qed.

(** The edited note takes the place of the recorded one. *)
Lemma save_note_replaces_whole_witness :
  NoteStorage.get_note_by_id "7c9e"
    (snd (NoteStorage.save_note Scenario.edited Scenario.shelf))
  = Ok (Some Scenario.edited).
Proof.
  apply (proj1 (proj2 (save_note_replaces_whole
                         [Scenario.recorded] Scenario.edited Scenario.recorded
                         0 eq_refl))).
Defined.

(** ** The monad, step by step *)

Section Steps.
Context {A B : Type}.

Lemma bind_ok (m : M A) (k : A -> M B) (w w1 : world) (a : A) :
  m w = (Ok a, w1) -> bind m k w = k a w1.
Proof. intros H. unfold bind. by rewrite H. Qed.

Lemma bind_raise (m : M A) (k : A -> M B) (w w1 : world) (e : exn) :
  m w = (Raise e, w1) -> bind m k w = (Raise e, w1).
Proof. intros H. unfold bind. by rewrite H. Qed.

Lemma try_ok (m : M A) (h : exn -> M A) (w w1 : world) (a : A) :
  m w = (Ok a, w1) -> try_except m h w = (Ok a, w1).
Proof. intros H. unfold try_except. by rewrite H. Qed.

Lemma try_raise (m : M A) (h : exn -> M A) (w w1 : world) (e : exn) :
  m w = (Raise e, w1) -> try_except m h w = h e w1.
Proof. intros H. unfold try_except. by rewrite H. Qed.

End Steps.

(** ** Result assembly *)

Section Assembly.
Import SpeechToTextService.

Lemma top_transcripts_well_formed (rs : list SpeechRecognitionResult) :
  Forall (fun r => alternatives r <> []) rs ->
  top_transcripts rs = Ok (map SpecAssembly.top rs).
Proof.
  induction 1 as [|r rs Hr _ IH]; [reflexivity|].
  cbn [top_transcripts map]. unfold SpecAssembly.top at 1.
  destruct (alternatives r) as [|a alts]; [done|]. by rewrite IH.
Qed.

Lemma or_no_speech_not_empty (transcription : string) :
  or_no_speech transcription <> "".
Proof.
  unfold or_no_speech. destruct (String.eqb_spec transcription ""); done.
Qed.

Context (E : env).

(** The removal of a file that exists, when [os.remove] does not raise. *)
Lemma remove_if_exists_ok (cond : bool) (path : string) (w : world) :
  (forall w0 p, os_remove E w0 p = None) ->
  exists w', remove_if_exists E cond path w = (Ok tt, w')
             /\ SpecCleanup.same_staging w w'
             /\ (cond = true -> path ∉ files w')
             /\ files w' ⊆ files w.
Proof.
  intros Hrm. unfold remove_if_exists, bind, os_path_exists, when, remove_file.
  destruct cond; [|by exists w].
  case_bool_decide as Hin; [|by exists w].
  rewrite Hrm. eexists. split; [reflexivity|]. split; [|split].
  - intros blob. unfold SpecCleanup.staged, SpecCleanup.deleted, count_events.
    cbn. rewrite !List.filter_app, !length_app. cbn. lia.
  - intros _. cbn. intros [_ Hout]%elem_of_difference.
    apply Hout. by apply elem_of_singleton.
  - cbn. intros p [Hp _]%elem_of_difference. exact Hp.
Qed.

(** C4, as the code has it.  For a response whose segments all have an
    alternative, the top alternatives are joined in delivery order with single
    spaces.  The transcript is that join whenever the join is not empty, and
    then it is what the specification assembles; it is the sentinel
    ["No speech detected in audio."] whenever the join is empty, which covers
    the empty result set; it is never the empty string.  Provided [os.remove]
    does not raise, this transcript is what the synchronous and the
    long-running path return when the backend answers with the response, and
    what [transcribe_audio] then returns to its caller on either transport. *)
Theorem transcript_assembly (response : RecognizeResponse) :
  SpecAssembly.well_formed response ->
  let joined := Py.join " " (map SpecAssembly.top (results response)) in
  (forall w, combine_transcripts response w = (Ok joined, w))
  /\ (joined <> "" ->
      or_no_speech joined = joined
      /\ joined = SpecAssembly.assemble response)
  /\ (joined = "" -> or_no_speech joined = "No speech detected in audio.")
  /\ (results response = [] ->
      or_no_speech joined = "No speech detected in audio.")
  /\ or_no_speech joined <> ""
  /\ (forall audio_path wav_path language_code w content,
        (forall w0 p, os_remove E w0 p = None) ->
        open_read E w wav_path = Ok content ->
        recognize E (log (EvOpenRead wav_path) w) (sync_config language_code)
                  (AudioContent content) = Ok response ->
        exists w',
          sync_body E audio_path wav_path language_code w
          = (Ok (or_no_speech joined), w'))
  /\ (forall audio_path language_code gcs_uri blob w,
        (forall w0 p, os_remove E w0 p = None) ->
        let config := long_config language_code in
        let audio := AudioUri gcs_uri in
        let w1 := log (EvPrint "Waiting for transcription to complete...")
                      (log (EvLongRunningRecognize config audio) w) in
        long_running_recognize E w config audio = None ->
        operation_result E w1 300 = Ok response ->
        exists w',
          long_body E audio_path language_code gcs_uri blob w
          = (Ok (or_no_speech joined), w'))
  /\ (forall audio_path wav_path language_code w w1 d w2 content,
        (forall w0 p, os_remove E w0 p = None) ->
        _convert_to_wav E audio_path w = (Ok wav_path, w1) ->
        _get_audio_duration E wav_path w1 = (Ok d, w2) ->
        Py.gt d Py.float_55 = false ->
        open_read E w2 wav_path = Ok content ->
        recognize E (log (EvOpenRead wav_path) w2) (sync_config language_code)
                  (AudioContent content) = Ok response ->
        exists w',
          transcribe_audio E audio_path language_code w
          = (Ok (or_no_speech joined), w'))
  /\ (forall audio_path wav_path language_code w w1 d w2 gcs_uri blob w3,
        (forall w0 p, os_remove E w0 p = None) ->
        _convert_to_wav E audio_path w = (Ok wav_path, w1) ->
        _get_audio_duration E wav_path w1 = (Ok d, w2) ->
        Py.gt d Py.float_55 = true ->
        _upload_to_gcs E wav_path w2 = (Ok (gcs_uri, blob), w3) ->
        let config := long_config language_code in
        let audio := AudioUri gcs_uri in
        let w4 := log (EvPrint "Waiting for transcription to complete...")
                      (log (EvLongRunningRecognize config audio) w3) in
        long_running_recognize E w3 config audio = None ->
        operation_result E w4 300 = Ok response ->
        exists w',
          transcribe_audio E audio_path language_code w
          = (Ok (or_no_speech joined), w')).
Proof.
  intros Hwf joined.
  assert (Hcombine : forall w, combine_transcripts response w = (Ok joined, w)).
  { intros w. unfold combine_transcripts, bind, of_result.
    by rewrite (top_transcripts_well_formed _ Hwf). }
  assert (Hsync : forall audio_path wav_path language_code w content,
             (forall w0 p, os_remove E w0 p = None) ->
             open_read E w wav_path = Ok content ->
             recognize E (log (EvOpenRead wav_path) w)
                       (sync_config language_code) (AudioContent content)
             = Ok response ->
             exists w',
               sync_body E audio_path wav_path language_code w
               = (Ok (or_no_speech joined), w')).
  { intros audio_path wav_path language_code w content Hrm Hread Hrec.
    unfold sync_body, bind at 1, read_bytes. rewrite Hread.
    unfold bind at 1, get_world, bind at 1, emit, bind at 1, of_result.
    rewrite Hrec. erewrite bind_ok by apply Hcombine.
    destruct (remove_if_exists_ok (negb (String.eqb wav_path audio_path))
                wav_path (log (EvRecognize (sync_config language_code)
                                 (AudioContent content))
                              (log (EvOpenRead wav_path) w)) Hrm)
      as (w' & Hremove & _).
    erewrite bind_ok by exact Hremove. by exists w'. }
  assert (Hlong : forall audio_path language_code gcs_uri blob w,
             (forall w0 p, os_remove E w0 p = None) ->
             let config := long_config language_code in
             let audio := AudioUri gcs_uri in
             let w1 := log (EvPrint "Waiting for transcription to complete...")
                           (log (EvLongRunningRecognize config audio) w) in
             long_running_recognize E w config audio = None ->
             operation_result E w1 300 = Ok response ->
             exists w',
               long_body E audio_path language_code gcs_uri blob w
               = (Ok (or_no_speech joined), w')).
  { intros audio_path language_code gcs_uri blob w Hrm config audio w1 Hlrr Hop.
    unfold long_body. fold config audio.
    unfold bind at 1, get_world, bind at 1, emit, bind at 1, of_failure.
    rewrite Hlrr. unfold bind at 1, print, emit, bind at 1, bind at 1.
    fold w1. unfold bind at 1, of_result. rewrite Hop.
    erewrite bind_ok by apply Hcombine.
    unfold _delete_from_gcs, try_except, bind at 1, bind at 1, get_world,
      bind at 1, emit, of_failure.
    set (w2 := log (EvOperationResult 300) w1).
    assert (Hdel : forall k : unit -> M string,
               (let (r, w'0) := match blob_delete E w2 blob with
                                | Some e => (Raise e, log (EvBlobDelete blob) w2)
                                | None => (Ok tt, log (EvBlobDelete blob) w2)
                                end in
                match r with
                | Ok a => (Ok a, w'0)
                | Raise _ => ret tt w'0
                end) = (Ok tt, log (EvBlobDelete blob) w2)).
    { intros _. by destruct (blob_delete E w2 blob). }
    rewrite (Hdel (fun _ => ret "")).
    destruct (remove_if_exists_ok (Py.endswith audio_path "_converted.wav")
                audio_path (log (EvBlobDelete blob) w2) Hrm)
      as (w' & Hremove & _).
    erewrite bind_ok by exact Hremove. by exists w'. }
  split; [exact Hcombine|].
  split; [|split; [|split; [|split; [|split; [|split; [|split]]]]]].
  - intros Hne. split.
    + unfold or_no_speech. by destruct (String.eqb_spec joined "").
    + unfold SpecAssembly.assemble. subst joined.
      destruct (results response); [by destruct Hne|reflexivity].
  - by intros ->.
  - subst joined. by intros ->.
  - apply or_no_speech_not_empty.
  - exact Hsync.
  - exact Hlong.
  - intros audio_path wav_path language_code w w1 d w2 content
      Hrm Hconv Hprobe Hgt Hread Hrec.
    destruct (Hsync audio_path wav_path language_code w2 content Hrm Hread Hrec)
      as [w' Hrun].
    exists w'. unfold transcribe_audio. rewrite Hconv.
    unfold try_except, transcribe_body, bind. rewrite Hprobe.
    unfold select_transport. by rewrite Hgt, Hrun.
  - intros audio_path wav_path language_code w w1 d w2 gcs_uri blob w3
      Hrm Hconv Hprobe Hgt Hup config audio w4 Hlrr Hop.
    destruct (Hlong wav_path language_code gcs_uri blob w3 Hrm Hlrr Hop)
      as [w' Hrun].
    exists w'. unfold transcribe_audio. rewrite Hconv.
    unfold try_except, transcribe_body, bind. rewrite Hprobe.
    unfold select_transport. rewrite Hgt.
    unfold _transcribe_long_audio. rewrite Hup.
    unfold try_except. by rewrite Hrun.
Qed.

End Assembly.

(** C4 does not hold as stated.  One segment whose top alternative is the
    empty text is a non-empty result set, and the transcript returned is the
    sentinel, not the concatenation.  And when [os.remove] of the converted
    file raises at line 175, the two segments of scenario A, whose
    concatenation is ["Hello world this is a test"], come back as the error
    text of the handler. *)
Lemma transcript_not_as_specified :
  let response := {| results := [Scenario.segment ""] |} in
  let E := Scenario.calm "30.0" (Ok response) in
  (SpecAssembly.well_formed response
   /\ SpecAssembly.assemble response = ""
   /\ fst (SpeechToTextService.transcribe_audio E "talk.wav" "auto"
             (Scenario.fresh {["talk.wav"]}))
      = Ok "No speech detected in audio."
   /\ fst (SpeechToTextService.transcribe_audio E "talk.wav" "auto"
             (Scenario.fresh {["talk.wav"]}))
      <> Ok (SpecAssembly.assemble response))
  /\ (SpecAssembly.well_formed Scenario.hello
      /\ SpecAssembly.assemble Scenario.hello = "Hello world this is a test"
      /\ fst (SpeechToTextService.transcribe_audio
                (Studio.removal_fails_once "30.0" (Ok Scenario.hello))
                "talk.mp3" "auto" (Scenario.fresh {["talk.mp3"]}))
         = Ok "Error during transcription: [Errno 13] Permission denied").
Proof.
  split.
  - repeat split; [|discriminate]. repeat constructor; discriminate.
  - split; [repeat constructor; discriminate|]. split; [reflexivity|].
    vm_compute. reflexivity.
Qed.

(** A segment without any alternative makes line 170 raise [IndexError],
    which the handler turns into the error string. *)
Remark transcript_of_empty_alternatives :
  fst (SpeechToTextService.transcribe_audio
         (Scenario.calm "30.0" (Ok {| results := [ {| alternatives := [] |} ] |}))
         "talk.wav" "auto" (Scenario.fresh {["talk.wav"]}))
  = Ok "Error during transcription: list index out of range".
Proof. reflexivity. Qed.

(** The two segments of scenario A, through the synchronous path. *)
Lemma transcript_assembly_witness :
  exists w',
    SpeechToTextService.sync_body (Scenario.calm "30.0" (Ok Scenario.hello))
      "talk.wav" "talk.wav" "auto" (Scenario.fresh {["talk.wav"]})
    = (Ok "Hello world this is a test", w').
Proof.
  assert (Hwf : SpecAssembly.well_formed Scenario.hello)
    by (repeat constructor; discriminate).
  destruct (transcript_assembly (Scenario.calm "30.0" (Ok Scenario.hello))
              Scenario.hello Hwf) as (_ & _ & _ & _ & _ & Hsync & _).
  apply (Hsync "talk.wav" "talk.wav" "auto" (Scenario.fresh {["talk.wav"]}) []);
    reflexivity.
Defined.

(** ** Cleanup of the staged object and of the converted file *)

Section Cleanup.
Import SpeechToTextService SpecCleanup.
Context (E : env).

Lemma staged_log (blob : string) (ev : event) (w : world) :
  staged blob (log ev w)
  = (staged blob w + if is_upload_of blob ev then 1 else 0)%nat.
Proof.
  unfold staged, count_events. cbn [trace log].
  rewrite List.filter_app, length_app. cbn. by destruct (is_upload_of blob ev).
Qed.

Lemma deleted_log (blob : string) (ev : event) (w : world) :
  deleted blob (log ev w)
  = (deleted blob w + if is_delete_of blob ev then 1 else 0)%nat.
Proof.
  unfold deleted, count_events. cbn [trace log].
  rewrite List.filter_app, length_app. cbn. by destruct (is_delete_of blob ev).
Qed.

Lemma trace_written_by (argv : list string) (w : world) :
  trace (written_by argv w) = trace w.
Proof.
  unfold written_by.
  repeat match goal with
         | |- context [match ?x with _ => _ end] => destruct x
         end; reflexivity.
Qed.

Lemma staged_written_by (blob : string) (argv : list string) (w : world) :
  staged blob (written_by argv w) = staged blob w.
Proof. unfold staged. by rewrite trace_written_by. Qed.

Lemma deleted_written_by (blob : string) (argv : list string) (w : world) :
  deleted blob (written_by argv w) = deleted blob w.
Proof. unfold deleted. by rewrite trace_written_by. Qed.

Lemma staged_set_files blob fs w : staged blob (set_files fs w) = staged blob w.
Proof. reflexivity. Qed.
Lemma deleted_set_files blob fs w : deleted blob (set_files fs w) = deleted blob w.
Proof. reflexivity. Qed.
Lemma staged_set_storage_client blob w :
  staged blob (set_storage_client w) = staged blob w.
Proof. reflexivity. Qed.
Lemma deleted_set_storage_client blob w :
  deleted blob (set_storage_client w) = deleted blob w.
Proof. reflexivity. Qed.
Lemma staged_set_bucket_name blob n w :
  staged blob (set_bucket_name n w) = staged blob w.
Proof. reflexivity. Qed.
Lemma deleted_set_bucket_name blob n w :
  deleted blob (set_bucket_name n w) = deleted blob w.
Proof. reflexivity. Qed.

Create Rewrite HintDb staging.
#[local] Hint Rewrite staged_log deleted_log staged_written_by deleted_written_by
  staged_set_files deleted_set_files staged_set_storage_client
  deleted_set_storage_client staged_set_bucket_name deleted_set_bucket_name
  : staging.

(** Case analysis on what the outside answers, one scrutinee at a time. *)
Ltac outside_cases :=
  repeat match goal with
         | |- context [match ?x with _ => _ end] =>
             lazymatch x with
             | context [match _ with _ => _ end] => fail
             | _ => destruct x eqn:?
             end
         end.

(** Counting the staging events of a world built from [log]s. *)
Ltac tally :=
  cbn [fst snd]; autorewrite with staging;
  cbn [is_upload_of is_delete_of]; try lia.

Lemma _delete_from_gcs_swallows (blob : option string) (w : world) :
  _delete_from_gcs E blob w
  = (Ok tt, match blob with Some b => log (EvBlobDelete b) w | None => w end).
Proof.
  unfold _delete_from_gcs, try_except, bind, get_world, emit, of_failure.
  destruct blob as [b|]; [|reflexivity]. by destruct (blob_delete E w b).
Qed.

Lemma _convert_to_wav_quiet (audio_path : string) (w : world) :
  same_staging w (snd (_convert_to_wav E audio_path w)).
Proof.
  intros blob.
  unfold _convert_to_wav, try_except, bind, run_checked, raise, ret.
  outside_cases; tally.
Qed.

Lemma _convert_to_wav_name (audio_path wav_path : string) (w w1 : world) :
  _convert_to_wav E audio_path w = (Ok wav_path, w1) ->
  wav_path <> audio_path ->
  Py.endswith wav_path "_converted.wav" = true.
Proof.
  unfold _convert_to_wav, try_except, bind, run_checked, raise, ret.
  outside_cases; try discriminate.
  - by intros [= -> _] Hne.
  - intros [= <- _] _. apply endswith_app.
Qed.

Lemma _setup_gcs_bucket_quiet (w : world) :
  same_staging w (snd (_setup_gcs_bucket E w)).
Proof.
  intros blob.
  unfold _setup_gcs_bucket, bind, when, get_world, emit, of_failure,
    try_except, ret.
  outside_cases; tally.
Qed.

Lemma _upload_to_gcs_effect (audio_path : string) (w : world) :
  match _upload_to_gcs E audio_path w with
  | (Ok (_, b), w1) =>
      forall blob,
        staged blob w1
        = (staged blob w + if String.eqb b blob then 1 else 0)%nat
        /\ deleted blob w1 = deleted blob w
  | (Raise _, w1) => same_staging w w1
  end.
Proof.
  unfold _upload_to_gcs, bind at 1.
  pose proof (_setup_gcs_bucket_quiet w) as Hquiet.
  destruct (_setup_gcs_bucket E w) as [[bucket|e] w0]; cbn [snd] in Hquiet;
    [|exact Hquiet].
  unfold bind, get_world, emit, of_failure, ret.
  destruct (upload_from_filename E w0 _ audio_path);
    intros blob; destruct (Hquiet blob); tally.
Qed.

(** From here on, [os.remove] does not raise. *)
Hypothesis remove_returns : forall w p, os_remove E w p = None.

(** Running to the end: the deletion of the blob swallows, the removal of a
    file returns, and the rest is a case analysis on the outside. *)
Ltac run_outside :=
  repeat first
    [ rewrite _delete_from_gcs_swallows
    | match goal with
      | |- context [remove_if_exists E ?c ?p ?x] =>
          let Heq := fresh "Hremove" in
          destruct (remove_if_exists_ok E c p x remove_returns) as (? & Heq & ? & ? & _);
          rewrite Heq; clear Heq
      end
    | match goal with
      | |- context [match ?x with _ => _ end] =>
          lazymatch x with
          | context [match _ with _ => _ end] => fail
          | _ => destruct x eqn:?
          end
      end ].

(** Lines 204-245, from a world in which [blob] is staged. *)
Lemma long_body_effect (audio_path language_code gcs_uri blob : string)
      (w : world) :
  exists r w',
    long_body E audio_path language_code gcs_uri blob w = (r, w')
    /\ match r with
       | Ok _ =>
           (forall b,
              staged b w' = staged b w
              /\ deleted b w'
                 = (deleted b w + if String.eqb blob b then 1 else 0)%nat)
           /\ (Py.endswith audio_path "_converted.wav" = true ->
               audio_path ∉ files w')
       | Raise _ => same_staging w w'
       end.
Proof.
  unfold long_body, combine_transcripts, bind, get_world, emit, of_failure,
    print, emit, of_result, ret.
  run_outside; do 2 eexists; (split; [reflexivity|]);
    try (intros b; tally).
  split; [|assumption]. intros b.
  match goal with H : same_staging _ _ |- _ => destruct (H b) as [-> ->] end.
  tally.
Qed.

Lemma balanced_after (created : option string) (w w1 w2 : world) :
  same_staging w w1 -> balanced created w1 w2 -> balanced created w w2.
Proof.
  intros Hsame Hbal b. destruct (Hsame b) as [Hs Hd], (Hbal b) as [Hs' Hd'].
  split; congruence.
Qed.

Lemma balanced_none (w w' : world) : same_staging w w' -> balanced None w w'.
Proof.
  intros Hsame b. destruct (Hsame b) as [-> ->]. cbn [one_for]. split; lia.
Qed.

Lemma _transcribe_long_audio_effect (audio_path language_code : string)
      (w : world) :
  exists s w',
    _transcribe_long_audio E audio_path language_code w = (Ok s, w')
    /\ (exists created, balanced created w w')
    /\ (Py.endswith audio_path "_converted.wav" = true ->
        audio_path ∉ files w').
Proof.
  unfold _transcribe_long_audio.
  pose proof (_upload_to_gcs_effect audio_path w) as Hup.
  destruct (_upload_to_gcs E audio_path w) as [[[gcs_uri blob]|e] w1].
  - destruct (long_body_effect audio_path language_code gcs_uri blob w1)
      as ([s|e] & w2 & Hbody & Hpost).
    + rewrite (try_ok _ _ _ _ _ Hbody). exists s, w2.
      split; [reflexivity|]. destruct Hpost as [Hcount Hgone].
      split; [|exact Hgone]. exists (Some blob). intros b.
      destruct (Hup b), (Hcount b). cbn [one_for].
      destruct (String.eqb blob b); lia.
    + rewrite (try_raise _ _ _ _ _ Hbody).
      unfold long_except, bind. rewrite _delete_from_gcs_swallows.
      destruct (remove_if_exists_ok E (Py.endswith audio_path "_converted.wav")
                  audio_path (log (EvBlobDelete blob) w2) remove_returns)
        as (w' & -> & Hsame & Hgone & _).
      do 2 eexists. split; [reflexivity|]. split; [|exact Hgone].
      exists (Some blob). intros b.
      destruct (Hsame b) as [Hs Hd], (Hup b), (Hpost b).
      rewrite staged_log in Hs. rewrite deleted_log in Hd.
      cbn [is_upload_of is_delete_of] in Hs, Hd. cbn [one_for].
      destruct (String.eqb blob b); lia.
  - unfold long_except, bind. rewrite _delete_from_gcs_swallows.
    destruct (remove_if_exists_ok E (Py.endswith audio_path "_converted.wav")
                audio_path w1 remove_returns) as (w' & -> & Hsame & Hgone & _).
    do 2 eexists. split; [reflexivity|]. split; [|exact Hgone].
    exists None. apply balanced_none. intros b.
    destruct (Hsame b), (Hup b). split; congruence.
Qed.

(** Lines 123-184: the synchronous path under the handler. *)
Lemma sync_path_effect (audio_path wav_path language_code : string)
      (w : world) :
  exists s w',
    try_except (sync_body E audio_path wav_path language_code)
               (transcribe_except E audio_path (Some wav_path)) w
    = (Ok s, w')
    /\ same_staging w w'
    /\ (wav_path <> audio_path -> wav_path ∉ files w').
Proof.
  assert (Hcond : wav_path <> audio_path ->
                  negb (String.eqb wav_path audio_path) = true)
    by (intros Hne%String.eqb_neq; by rewrite Hne).
  unfold try_except, sync_body, transcribe_except, combine_transcripts, bind,
    read_bytes, get_world, emit, of_result, ret.
  run_outside; do 2 eexists; (split; [reflexivity|]);
    (split; [|by auto]); intros b;
    repeat match goal with H : same_staging _ _ |- _ =>
             destruct (H b) as [-> ->]; clear H end;
    tally.
Qed.

(** Lines 116-184, once line 114 has bound [wav_path]. *)
Lemma after_conversion (audio_path wav_path language_code : string)
      (w : world) :
  exists s w',
    try_except (transcribe_body E audio_path wav_path language_code)
               (transcribe_except E audio_path (Some wav_path)) w
    = (Ok s, w')
    /\ (exists created, balanced created w w')
    /\ (wav_path <> audio_path ->
        Py.endswith wav_path "_converted.wav" = true ->
        wav_path ∉ files w').
Proof.
  unfold try_except, transcribe_body, bind at 1.
  rewrite _get_audio_duration_total.
  match goal with
  | |- context [log (EvSubprocess ?argv) w] =>
      set (w2 := log (EvSubprocess argv) w)
  end.
  assert (Hprobe : same_staging w w2) by (intros b; subst w2; tally).
  destruct (select_transport _).
  - destruct (sync_path_effect audio_path wav_path language_code w2)
      as (s & w' & Hrun & Hsame & Hgone).
    unfold try_except in Hrun. rewrite Hrun. exists s, w'.
    split; [reflexivity|]. split; [|auto].
    exists None. by apply (balanced_after _ _ w2), balanced_none.
  - destruct (_transcribe_long_audio_effect wav_path language_code w2)
      as (s & w' & -> & [created Hcount] & Hgone).
    exists s, w'. split; [reflexivity|]. split; [|auto].
    exists created. by apply (balanced_after _ _ w2).
Qed.

(** What is left of "never raises": once the conversion of line 114 has
    returned and as long as [os.remove] does not raise, [transcribe_audio]
    returns a string. *)
Lemma transcribe_audio_returns (audio_path wav_path language_code : string)
      (w w1 : world) :
  _convert_to_wav E audio_path w = (Ok wav_path, w1) ->
  exists s w', transcribe_audio E audio_path language_code w = (Ok s, w').
Proof.
  intros Hconv. unfold transcribe_audio. rewrite Hconv.
  destruct (after_conversion audio_path wav_path language_code w1)
    as (s & w' & Hrun & _).
  by exists s, w'.
Qed.

(** C3, as the code has it.  Whenever [os.remove] does not raise (the
    section's hypothesis [remove_returns]), every way in which an invocation
    of [transcribe_audio] ends leaves the staging balanced: in all it staged
    at most one object, and it asked for the deletion of that object exactly
    once and for no other deletion.  A failing deletion of the blob is
    swallowed: [_delete_from_gcs] returns whatever [blob.delete()] does.
    Once the conversion of line 114 has returned, the invocation returns a
    string (the transcript, or the text of a caught error or time-out), and a
    converted file that is not the input does not exist afterwards.  When the
    conversion fails, the invocation raises, with nothing staged and no
    deletion asked for; nothing is said then of a file that the failed
    conversion may have left. *)
Theorem cleanup_when_removal_returns (audio_path language_code : string)
        (w : world) :
  cleans_up E audio_path language_code w
  /\ (forall blob w0, exists w1, _delete_from_gcs E blob w0 = (Ok tt, w1))
  /\ (forall wav_path w1,
        _convert_to_wav E audio_path w = (Ok wav_path, w1) ->
        exists s w',
          transcribe_audio E audio_path language_code w = (Ok s, w')
          /\ (wav_path <> audio_path -> wav_path ∉ files w'))
  /\ (forall e w1,
        _convert_to_wav E audio_path w = (Raise e, w1) ->
        transcribe_audio E audio_path language_code w
        = (Raise (UnboundLocalError "wav_path"), w1)
        /\ same_staging w w1).
Proof.
  pose proof (_convert_to_wav_quiet audio_path w) as Hquiet.
  split; [|split; [|split]].
  - unfold cleans_up, transcribe_audio.
    destruct (_convert_to_wav E audio_path w) as [[wav_path|e] w1] eqn:Hconv;
      cbn [snd] in Hquiet.
    + destruct (after_conversion audio_path wav_path language_code w1)
        as (s & w' & -> & [created Hcount] & Hgone).
      cbn [snd]. split.
      * exists created. by apply (balanced_after _ _ w1).
      * intros wav_path' w1' [= <- <-] Hne. apply Hgone; [exact Hne|].
        by eapply _convert_to_wav_name.
    + cbn [transcribe_except raise snd]. split; [|intros ? ? [=]].
      exists None. by apply balanced_none.
  - intros blob w0. rewrite _delete_from_gcs_swallows. by eexists.
  - intros wav_path w1 Hconv. unfold transcribe_audio. rewrite Hconv.
    destruct (after_conversion audio_path wav_path language_code w1)
      as (s & w' & -> & _ & Hgone).
    exists s, w'. split; [reflexivity|]. intros Hne. apply Hgone; [exact Hne|].
    by eapply _convert_to_wav_name.
  - intros e w1 Hconv. unfold transcribe_audio. rewrite Hconv in *.
    split; [reflexivity|exact Hquiet].
Qed.

End Cleanup.

(** C3 does not hold as stated.  A 90-second MP3 is converted and staged;
    recognition succeeds and line 239 deletes the blob; then [os.remove] of
    the converted file raises (a read-only directory), line 247 catches it
    and line 249 deletes the blob a second time; the converted file stays. *)
Lemma cleanup_not_as_specified :
  ~ SpecCleanup.cleans_up
      (Scenario.outside (Scenario.tools "90.0")
         (Some (Exception "[Errno 13] Permission denied"))
         (Ok Scenario.hello) (Ok "A summary") (Ok MutagenNone))
      "talk.mp3" "auto" (Scenario.fresh {["talk.mp3"]}).
Proof.
  intros [[created Hcount] _].
  specialize (Hcount "audio/1700000000_talk_converted.wav").
  vm_compute in Hcount. destruct Hcount as [Hstaged Hdeleted].
  rewrite <- Hstaged in Hdeleted. discriminate Hdeleted.
Qed.

(** Scenario B ends with the blob deleted once and the WAV copy removed. *)
Lemma cleanup_when_removal_returns_witness :
  SpecCleanup.cleans_up (Scenario.calm "90.0" (Ok Scenario.hello))
    "talk.mp3" "auto" (Scenario.fresh {["talk.mp3"]}).
Proof.
  apply (proj1 (cleanup_when_removal_returns
                  (Scenario.calm "90.0" (Ok Scenario.hello))
                  (fun _ _ => eq_refl) "talk.mp3" "auto"
                  (Scenario.fresh {["talk.mp3"]}))).
Defined.

(* ===================================================================== *)
(** * More of the note store *)
(* ===================================================================== *)

Section Store.
Import NoteStorage.

Lemma list_find_insert_other (notes : list note.Note) (j : string)
      (i : nat) (n old : note.Note) :
  notes !! i = Some old -> ~ same_id j n -> ~ same_id j old ->
  list_find (same_id j) (<[i:=n]> notes) = list_find (same_id j) notes.
Proof.
  revert i. induction notes as [|x notes IH]; intros [|i] Hi Hn Hold;
    simplify_eq/=; try done.
  - by rewrite !decide_False.
  - by rewrite (IH i).
Qed.

Lemma filter_insert_same (notes : list note.Note) (j : string)
      (i : nat) (n old : note.Note) :
  notes !! i = Some old -> same_id j n -> same_id j old ->
  filter (fun x => ~ same_id j x) (<[i:=n]> notes)
  = filter (fun x => ~ same_id j x) notes.
Proof.
  revert i. induction notes as [|x notes IH]; intros [|i] Hi Hn Hold;
    simplify_eq/=; try done.
  - rewrite !filter_cons. rewrite !decide_False; tauto.
  - rewrite !filter_cons. by rewrite (IH i).
Qed.

(** What [save_note] leaves in the file, by the two cases of its loop. *)
Lemma save_note_stored (d : disk) (n : note.Note) (notes : list note.Note) :
  _load_notes d = Ok notes -> write_error d = None ->
  exists notes',
    save_note n d
    = (Ok tt, {| notes_json := Stored notes'; write_error := None |})
    /\ ((exists i old,
           list_find (same_id (note.id n)) notes = Some (i, old)
           /\ notes' = <[i:=n]> notes)
        \/ (list_find (same_id (note.id n)) notes = None
            /\ notes' = (notes ++ [n])%list)).
Proof.
  intros Hload Hwrite. unfold save_note, _save_notes.
  rewrite Hload, Hwrite.
  destruct (list_find (same_id (note.id n)) notes) as [[i old]|] eqn:Hfind;
    eexists; (split; [reflexivity|]); [left|right]; eauto.
Qed.

(** Save, then look up: on a store that can be read and written, the note
    just saved is the one its id finds, whether the id was new or not; the
    store grows by one note exactly when the id was new. *)
Theorem save_then_get (d : disk) (n : note.Note) (notes : list note.Note) :
  _load_notes d = Ok notes -> write_error d = None ->
  exists notes',
    save_note n d
    = (Ok tt, {| notes_json := Stored notes'; write_error := None |})
    /\ get_note_by_id (note.id n) (snd (save_note n d)) = Ok (Some n)
    /\ length notes'
       = (length notes
          + match list_find (same_id (note.id n)) notes with
            | Some _ => 0
            | None => 1
            end)%nat.
Proof.
  intros Hload Hwrite.
  destruct (save_note_stored d n notes Hload Hwrite)
    as (notes' & Hsave & Hcases).
  exists notes'. rewrite Hsave. split; [reflexivity|].
  unfold get_note_by_id. cbn.
  destruct Hcases as [(i & old & Hfind & ->)|[Hfind ->]]; rewrite Hfind.
  - rewrite (list_find_insert_same _ _ _ _ Hfind), length_insert.
    split; [reflexivity|lia].
  - rewrite list_find_app_r by done. cbn. rewrite decide_True by done.
    rewrite length_app. cbn. split; [reflexivity|lia].
Qed.

(** Saving a note does not disturb the lookup of any other id. *)
Theorem save_keeps_other_ids (d : disk) (n : note.Note)
        (notes : list note.Note) (other : string) :
  _load_notes d = Ok notes -> write_error d = None ->
  other <> note.id n ->
  get_note_by_id other (snd (save_note n d)) = get_note_by_id other d.
Proof.
  intros Hload Hwrite Hother.
  destruct (save_note_stored d n notes Hload Hwrite)
    as (notes' & -> & [(i & old & Hfind & ->)|[Hfind ->]]);
    unfold get_note_by_id; rewrite Hload; cbn; f_equal; f_equal.
  - apply list_find_Some in Hfind as (Hlook & Hid & _).
    apply (list_find_insert_other _ _ _ _ _ Hlook); unfold same_id in *;
      congruence.
  - destruct (list_find (same_id other) notes) as [[j x]|] eqn:Hj.
    + by apply list_find_app_l.
    + rewrite list_find_app_r by done. cbn. rewrite decide_False; [done|].
      unfold same_id. congruence.
Qed.

(** The ids of the store stay pairwise distinct under [save_note] and
    [delete_note]. *)
Theorem unique_ids_kept (d : disk) (notes : list note.Note) :
  _load_notes d = Ok notes ->
  NoDup (note.id <$> notes) ->
  (forall n notes',
     _load_notes (snd (save_note n d)) = Ok notes' ->
     NoDup (note.id <$> notes'))
  /\ (forall note_id notes',
        _load_notes (snd (delete_note note_id d)) = Ok notes' ->
        NoDup (note.id <$> notes')).
Proof.
  intros Hload Hdup. split.
  - intros n notes'. unfold save_note, _save_notes. rewrite Hload.
    destruct (write_error d) eqn:Hwrite; cbn [snd];
      [rewrite Hload; by intros [= <-]|].
    destruct (list_find (same_id (note.id n)) notes) as [[i old]|] eqn:Hfind;
      cbn; intros [= <-].
    + apply list_find_Some in Hfind as (Hlook & Hid & _).
      rewrite list_fmap_insert, list_insert_id; [done|].
      rewrite list_lookup_fmap, Hlook. cbn. by rewrite Hid.
    + apply list_find_None in Hfind. rewrite fmap_app. cbn.
      apply NoDup_app. split; [done|]. split; [|apply NoDup_singleton].
      intros x (y & -> & Hy)%list_elem_of_fmap Hin%list_elem_of_singleton.
      rewrite Forall_forall in Hfind. by apply (Hfind y).
  - intros note_id notes'. unfold delete_note, _save_notes. rewrite Hload.
    destruct (_ <? _)%nat; [|cbn [snd]; rewrite Hload; by intros [= <-]].
    destruct (write_error d) eqn:Hwrite; cbn [snd];
      [rewrite Hload; by intros [= <-]|].
    cbn. intros [= <-].
    eapply sublist_NoDup; [exact Hdup|]. apply fmap_sublist, sublist_filter.
Qed.

(** Deleting an id that is in the store, on a store that can be written. *)
Lemma delete_note_present (d : disk) (notes : list note.Note)
      (note_id : string) :
  _load_notes d = Ok notes ->
  Exists (same_id note_id) notes -> write_error d = None ->
  delete_note note_id d
  = (Ok true,
     {| notes_json := Stored (filter (fun n => ~ same_id note_id n) notes);
        write_error := None |}).
Proof.
  intros Hload (x & Hx & Hid)%Exists_exists Hwrite.
  unfold delete_note, _save_notes. rewrite Hload, Hwrite.
  pose proof (length_filter_lt (fun n => ~ same_id note_id n) notes x Hx)
    as Hlt.
  destruct (Nat.ltb_spec
              (length (filter (fun n => ~ same_id note_id n) notes))
              (length notes)); [done|].
  exfalso. assert (Hnn : ~ ~ same_id note_id x) by tauto.
  specialize (Hlt Hnn). lia.
Qed.

(** [delete_note] answers whether a note had the id; it takes out every note
    with the id and keeps the others in their order; when no note has the id
    it writes nothing, so it returns [False] even on a store that cannot be
    written; and the id finds nothing afterwards. *)
Theorem delete_note_effect (d : disk) (notes : list note.Note)
        (note_id : string) :
  _load_notes d = Ok notes ->
  (Exists (same_id note_id) notes -> write_error d = None ->
   delete_note note_id d
   = (Ok true,
      {| notes_json := Stored (filter (fun n => ~ same_id note_id n) notes);
         write_error := None |}))
  /\ (~ Exists (same_id note_id) notes -> delete_note note_id d = (Ok false, d))
  /\ (forall r d', delete_note note_id d = (Ok r, d') ->
      get_note_by_id note_id d' = Ok None).
Proof.
  intros Hload.
  assert (Hnone : list_find (same_id note_id)
                    (filter (fun n => ~ same_id note_id n) notes) = None).
  { apply list_find_None, Forall_forall.
    intros x [Hx _]%list_elem_of_filter. exact Hx. }
  assert (Hlen : forall l : list note.Note,
             ~ Exists (same_id note_id) l ->
             filter (fun n => ~ same_id note_id n) l = l).
  { induction l as [|x l IH]; [done|]. intros Hex. rewrite filter_cons.
    rewrite decide_True by (intros ?; apply Hex; by left).
    rewrite IH; [done|]. intros ?; apply Hex; by right. }
  split; [|split].
  - by apply delete_note_present.
  - intros Hex. unfold delete_note. rewrite Hload, (Hlen _ Hex).
    by rewrite Nat.ltb_irrefl.
  - intros r d'. unfold delete_note, _save_notes. rewrite Hload.
    destruct (Nat.ltb_spec
                (length (filter (fun n => ~ same_id note_id n) notes))
                (length notes)) as [Hlt|Hge].
    + destruct (write_error d); [discriminate|]. intros [= <- <-].
      unfold get_note_by_id. cbn. by rewrite Hnone.
    + intros [= <- <-]. unfold get_note_by_id. rewrite Hload.
      destruct (decide (Exists (same_id note_id) notes)) as [Hex|Hex].
      * apply Exists_exists in Hex as (x & Hx & Hid).
        pose proof (length_filter_lt (fun n => ~ same_id note_id n) notes x Hx).
        assert (Hnn : ~ ~ same_id note_id x) by tauto. intuition lia.
      * by rewrite <- (Hlen _ Hex), Hnone.
Qed.

(** Save, then delete the same id: what is left is the earlier store without
    that id, whatever it held under the id before. *)
Theorem save_then_delete (d : disk) (n : note.Note) (notes : list note.Note) :
  _load_notes d = Ok notes -> write_error d = None ->
  delete_note (note.id n) (snd (save_note n d))
  = (Ok true,
     {| notes_json :=
          Stored (filter (fun x => ~ same_id (note.id n) x) notes);
        write_error := None |}).
Proof.
  intros Hload Hwrite.
  destruct (save_note_stored d n notes Hload Hwrite)
    as (notes' & -> & Hcases). cbn [snd].
  assert (Hex : Exists (same_id (note.id n)) notes').
  { apply Exists_exists. exists n. split; [|done].
    destruct Hcases as [(i & old & Hfind & ->)|[Hfind ->]].
    - apply list_find_Some in Hfind as (Hlook & _).
      apply list_elem_of_lookup. exists i.
      apply list_lookup_insert_eq. by eapply lookup_lt_Some.
    - apply elem_of_app. right. by apply list_elem_of_singleton. }
  rewrite (delete_note_present
             {| notes_json := Stored notes'; write_error := None |}
             notes' (note.id n) eq_refl Hex eq_refl). do 3 f_equal.
  destruct Hcases as [(i & old & Hfind & ->)|[Hfind ->]].
  - apply list_find_Some in Hfind as (Hlook & Hid & _).
    by apply (filter_insert_same _ _ _ _ _ Hlook).
  - rewrite filter_app, filter_cons, decide_False, filter_nil.
    + by rewrite app_nil_r.
    + unfold same_id. tauto.
Qed.


End Store.

(** The edited standup note is found after it is saved. *)
Lemma save_then_get_witness :
  NoteStorage.get_note_by_id "7c9e"
    (snd (NoteStorage.save_note Scenario.edited Scenario.shelf))
  = Ok (Some Scenario.edited).
Proof.
  destruct (save_then_get Scenario.shelf Scenario.edited [Scenario.recorded]
              eq_refl eq_refl) as (notes' & _ & Hget & _).
  exact Hget.
Defined.

(** Saving the standup note leaves the lookup of another id as it was. *)
Lemma save_keeps_other_ids_witness :
  NoteStorage.get_note_by_id "41aa"
    (snd (NoteStorage.save_note Scenario.edited Scenario.shelf))
  = NoteStorage.get_note_by_id "41aa" Scenario.shelf.
Proof.
  apply (save_keeps_other_ids Scenario.shelf Scenario.edited
           [Scenario.recorded] "41aa" eq_refl eq_refl).
  discriminate.
Defined.

(** The shelf with one note has distinct ids after a save. *)
Lemma unique_ids_kept_witness :
  NoDup (note.id <$> [Scenario.edited]).
Proof.
  apply (proj1 (unique_ids_kept Scenario.shelf [Scenario.recorded] eq_refl
                  (NoDup_singleton "7c9e"))
           Scenario.edited [Scenario.edited] eq_refl).
Defined.

(** Deleting the standup note empties the shelf. *)
Lemma delete_note_effect_witness :
  NoteStorage.delete_note "7c9e" Scenario.shelf
  = (Ok true,
     {| NoteStorage.notes_json := NoteStorage.Stored [];
        NoteStorage.write_error := None |}).
Proof.
  apply (proj1 (delete_note_effect Scenario.shelf [Scenario.recorded] "7c9e"
                  eq_refl)).
  - by left.
  - reflexivity.
Defined.

(** Saving the edit and deleting its id empties the shelf. *)
Lemma save_then_delete_witness :
  NoteStorage.delete_note "7c9e"
    (snd (NoteStorage.save_note Scenario.edited Scenario.shelf))
  = (Ok true,
     {| NoteStorage.notes_json := NoteStorage.Stored [];
        NoteStorage.write_error := None |}).
Proof.
  apply (save_then_delete Scenario.shelf Scenario.edited [Scenario.recorded]
           eq_refl eq_refl).
Defined.


(* ===================================================================== *)
(** * The player *)
(* ===================================================================== *)

(** Case analysis on every answer of the outside, innermost first. *)
Ltac answers :=
  repeat match goal with
         | |- context [match ?x with _ => _ end] =>
             lazymatch x with
             | context [match _ with _ => _ end] => fail
             | _ => destruct x eqn:?
             end
         end.

Section Player.
Import Playback.
Context (E : env) (G : pygame).

Lemma removed_log (ev : event) (w : world) :
  removed (trace (log ev w))
  = (removed (trace w)
     ++ match ev with EvRemove p => [p] | _ => [] end)%list.
Proof.
  unfold removed. cbn [trace log]. rewrite omap_app. by destruct ev.
Qed.

Lemma ffmpeg_log (ev : event) (w : world) :
  count_events is_ffmpeg (trace (log ev w))
  = (count_events is_ffmpeg (trace w) + if is_ffmpeg ev then 1 else 0)%nat.
Proof.
  unfold count_events. cbn [trace log].
  rewrite List.filter_app, length_app. cbn. by destruct (is_ffmpeg ev).
Qed.

(** What [_convert_for_playback] can return, and that it removes nothing. *)
Lemma _convert_for_playback_result (audio_path : string) (w : world) :
  removed (trace (snd (_convert_for_playback E audio_path w)))
  = removed (trace w)
  /\ forall out, fst (_convert_for_playback E audio_path w) = Ok out ->
                 out = audio_path \/ out = copy_of audio_path.
Proof.
  unfold _convert_for_playback, copy_of, try_except, bind, os_path_exists,
    run_checked, print, emit, raise, ret.
  answers; cbn [fst snd];
    repeat first [rewrite removed_log | rewrite trace_written_by
                 | rewrite app_nil_r];
    (split; [reflexivity|]); intros out [= <-]; auto.
Qed.

(** The cleanup at the head of [load] returns, and removes at most the
    converted file the player remembers. *)
Lemma drop_previous_result (p : player) (w : world) :
  exists w',
    drop_previous E p w = (Ok tt, w')
    /\ (removed (trace w') = removed (trace w)
        \/ exists c, converted_file p = Some c
                     /\ removed (trace w') = (removed (trace w) ++ [c])%list).
Proof.
  unfold drop_previous, try_except, bind, os_path_exists, when, remove_file,
    ret.
  destruct (converted_file p) as [c|] eqn:Hc; cbn [truthy default];
    answers; eexists; (split; [reflexivity|]);
    cbn [trace set_files];
    repeat first [rewrite removed_log | rewrite app_nil_r];
    try discriminate; eauto.
Qed.

Lemma _convert_for_playback_inv (audio_path : string) (w w' : world)
      (r : result string) :
  _convert_for_playback E audio_path w = (r, w') ->
  removed (trace w') = removed (trace w)
  /\ forall out, r = Ok out -> out = audio_path \/ out = copy_of audio_path.
Proof.
  intros Hrun. pose proof (_convert_for_playback_result audio_path w) as H.
  by rewrite Hrun in H.
Qed.

Lemma drop_previous_inv (p : player) (w w' : world) (r : result unit) :
  drop_previous E p w = (r, w') ->
  removed (trace w') = removed (trace w)
  \/ exists c, converted_file p = Some c
               /\ removed (trace w') = (removed (trace w) ++ [c])%list.
Proof.
  intros Hrun. destruct (drop_previous_result p w) as (w0 & Hrun' & H).
  rewrite Hrun in Hrun'. by injection Hrun' as -> ->.
Qed.

(** [load], step by step. *)
Lemma load_steps (audio_path : string) (s : stage) :
  let failed (e : exn) (p : player) (calls : list mixer_call) (w : world) :=
    (Raise (Exception ("Error loading audio: " ++ str e)),
     {| self := p; mixer_calls := calls;
        os_world := log (EvPrint ("Error in load(): " ++ str e)) w |}) in
  let w0 := log (EvPrint ("Loading audio: " ++ audio_path)) (os_world s) in
  load E G audio_path s
  = if bool_decide (audio_path ∈ files w0) then
      match drop_previous E (self s) w0 with
      | (Raise e, w1) => failed e (self s) (mixer_calls s) w1
      | (Ok _, w1) =>
          match _convert_for_playback E audio_path w1 with
          | (Raise e, w2) => failed e (self s) (mixer_calls s) w2
          | (Ok out, w2) =>
              let w3 := log (EvPrint ("Loading into pygame: " ++ out)) w2 in
              let me :=
                set_converted_file
                  (if String.eqb out audio_path then None else Some out)
                  (set_current_file (Some audio_path) (self s)) in
              let calls := (mixer_calls s ++ [MixerLoad out])%list in
              match G {| self := me; mixer_calls := mixer_calls s;
                         os_world := w3 |} (MixerLoad out) with
              | Some e => failed e me calls w3
              | None =>
                  (Ok tt,
                   {| self := set_is_paused false (set_is_playing false me);
                      mixer_calls := calls;
                      os_world := log (EvPrint "Audio loaded successfully") w3 |})
              end
          end
      end
    else failed (Exception ("Audio file not found: " ++ audio_path))
           (self s) (mixer_calls s) w0.
Proof.
  intros failed w0. subst failed w0.
  unfold load, ptry, pbind, lift, get_self, set_self, mixer, pret, praise,
    print, emit, os_path_exists.
  cbn [os_world self mixer_calls].
  destruct (bool_decide _); cbn [os_world self mixer_calls]; [|reflexivity].
  destruct (drop_previous E (self s) _) as [[[]|e] w1];
    cbn [os_world self mixer_calls]; [|reflexivity].
  destruct (_convert_for_playback E audio_path w1) as [[out|e] w2];
    cbn [os_world self mixer_calls]; [|reflexivity].
  destruct (G _ _); reflexivity.
Qed.

(** One [load]: what it does to the flags, to the remembered copy and to
    the files. *)
Lemma load_effect (audio_path : string) (s : stage) :
  let s' := snd (load E G audio_path s) in
  (coherent (self s) -> coherent (self s'))
  /\ (remembers_copy (self s) -> remembers_copy (self s'))
  /\ (removed (trace (os_world s')) = removed (trace (os_world s))
      \/ exists c, converted_file (self s) = Some c
                   /\ removed (trace (os_world s'))
                      = (removed (trace (os_world s)) ++ [c])%list).
Proof.
  intros s'. subst s'.
  pose proof (load_steps audio_path s) as Hload. cbv beta zeta in Hload.
  rewrite Hload. clear Hload.
  destruct (bool_decide _); cbn [snd self os_world];
    [|rewrite !removed_log, !app_nil_r; by auto].
  destruct (drop_previous E (self s) _) as [[[]|e] w1] eqn:Hdrop;
    apply drop_previous_inv in Hdrop;
    rewrite removed_log, app_nil_r in Hdrop; cbn [snd self os_world];
    [|rewrite removed_log, app_nil_r; by auto].
  destruct (_convert_for_playback E audio_path w1) as [[out|e] w2] eqn:Hconv;
    apply _convert_for_playback_inv in Hconv as [Hsame Hout];
    cbn [snd self os_world];
    [|rewrite removed_log, app_nil_r, Hsame; by auto].
  assert (Hcopy : remembers_copy
                    (set_converted_file
                       (if String.eqb out audio_path then None else Some out)
                       (set_current_file (Some audio_path) (self s)))).
  { intros c. cbn. destruct (String.eqb_spec out audio_path) as [|Hne];
      [discriminate|]. intros [= <-].
    destruct (Hout out eq_refl) as [-> | ->]; [done|apply endswith_app]. }
  destruct (G _ _); cbn [snd self os_world];
    rewrite !removed_log, !app_nil_r, Hsame;
    (split; [|split; [intros _|exact Hdrop]]).
  - intros Hco. exact Hco.
  - exact Hcopy.
  - intros _. reflexivity.
  - intros c Hc. by apply (Hcopy c).
Qed.

(** [play], [pause] and [stop] keep the remembered copy and remove
    nothing. *)
Lemma controls_effect (r : request) (s : stage) :
  (forall audio_path, r <> Load audio_path) ->
  let s' := snd (serve E G r s) in
  (coherent (self s) -> coherent (self s'))
  /\ converted_file (self s') = converted_file (self s)
  /\ removed (trace (os_world s')) = removed (trace (os_world s)).
Proof.
  intros Hr. destruct r as [audio_path| | |]; [by destruct (Hr audio_path)| | |];
    unfold serve, play, pause, stop, ptry, pbind, lift, get_self, set_self,
      mixer, pret, praise, print, emit, os_path_exists, coherent;
    answers; cbn [snd self os_world mixer_calls] in *;
    repeat first [rewrite removed_log | rewrite app_nil_r];
    (split; [|split]); try reflexivity; cbn; try tauto;
    try (intros _; reflexivity).
  - intros ->. apply andb_false_r.
  - intros _. match goal with H : is_playing _ = false |- _ => by rewrite H end.
Qed.

(** In every session the player is never playing and paused at once,
    whatever the mixer, the tools and the file system do. *)
Theorem session_coherent (rs : list request) (s : stage) :
  coherent (self s) -> coherent (self (session E G rs s)).
Proof.
  revert s. induction rs as [|r rs IH]; intros s Hco; [exact Hco|].
  cbn [session]. apply IH.
  destruct r as [audio_path| | |];
    [apply (load_effect audio_path s), Hco
    |apply (controls_effect _ s); [discriminate|exact Hco]..].
Qed.

(** In every session that starts with no remembered copy, or with one whose
    name ends in [_playback.mp3], the only files the player removes are
    files whose name ends in [_playback.mp3]: the audio file of a note is
    never removed by playing it. *)
Theorem session_removes_only_copies (rs : list request) (s : stage) :
  remembers_copy (self s) ->
  Forall (fun p => Py.endswith p "_playback.mp3" = true)
         (removed (trace (os_world s))) ->
  Forall (fun p => Py.endswith p "_playback.mp3" = true)
         (removed (trace (os_world (session E G rs s)))).
Proof.
  revert s. induction rs as [|r rs IH]; intros s Hrem Hall; [exact Hall|].
  cbn [session].
  destruct r as [audio_path| | |].
  - destruct (load_effect audio_path s) as (_ & Hkeep & Hremoved).
    apply IH; cbn [serve]; [by apply Hkeep|].
    destruct Hremoved as [-> | (c & Hc & ->)]; [exact Hall|].
    apply Forall_app. split; [exact Hall|]. repeat constructor. by apply Hrem.
  - destruct (controls_effect Play s) as (_ & Hconv & Hremoved);
      [discriminate|].
    apply IH; [unfold remembers_copy; by rewrite Hconv|by rewrite Hremoved].
  - destruct (controls_effect Pause s) as (_ & Hconv & Hremoved);
      [discriminate|].
    apply IH; [unfold remembers_copy; by rewrite Hconv|by rewrite Hremoved].
  - destruct (controls_effect Stop s) as (_ & Hconv & Hremoved);
      [discriminate|].
    apply IH; [unfold remembers_copy; by rewrite Hconv|by rewrite Hremoved].
Qed.

(** The conversion for playback is cached: once it has returned a path, a
    second call returns the same path, runs no ffmpeg and leaves the files
    as they are. *)
Theorem convert_for_playback_cached (audio_path out : string) (w w1 : world) :
  _convert_for_playback E audio_path w = (Ok out, w1) ->
  exists w2,
    _convert_for_playback E audio_path w1 = (Ok out, w2)
    /\ count_events is_ffmpeg (trace w2) = count_events is_ffmpeg (trace w1)
    /\ files w2 = files w1.
Proof.
  unfold _convert_for_playback.
  destruct (existsb _ supported_formats).
  { intros [= <- <-]. by exists w. }
  fold (copy_of audio_path).
  unfold try_except, bind, os_path_exists, run_checked, print, emit, raise, ret.
  case_bool_decide as Hin.
  - intros [= <- <-]. rewrite bool_decide_eq_true_2 by done.
    eexists. split; [reflexivity|]. by rewrite ffmpeg_log, Nat.add_0_r.
  - destruct (subprocess_run E _ _) as [stdout|msg [err|why]|e];
      [|discriminate..|destruct e as [| ? []| | | |]; discriminate].
    intros [= <- <-]. rewrite bool_decide_eq_true_2 by (cbn; set_solver).
    eexists. split; [reflexivity|]. by rewrite ffmpeg_log, Nat.add_0_r.
Qed.

(** A file that is not there is refused before anything is touched: [load]
    raises the error with the path, and the player, the mixer and the files
    are as before. *)
Theorem load_missing_file (audio_path : string) (s : stage) :
  audio_path ∉ files (os_world s) ->
  exists s',
    load E G audio_path s
    = (Raise (Exception ("Error loading audio: Audio file not found: "
                         ++ audio_path)), s')
    /\ self s' = self s
    /\ mixer_calls s' = mixer_calls s
    /\ files (os_world s') = files (os_world s)
    /\ count_events is_ffmpeg (trace (os_world s'))
       = count_events is_ffmpeg (trace (os_world s)).
Proof.
  intros Hout.
  unfold load, ptry, pbind, lift, get_self, set_self, mixer, pret, praise,
    print, emit, os_path_exists.
  cbn [os_world files log]. rewrite bool_decide_eq_false_2 by done.
  eexists. split; [reflexivity|]. cbn [self mixer_calls os_world str].
  repeat split. by rewrite !ffmpeg_log, !Nat.add_0_r.
Qed.

(** How a [load] ends.  Either it returns: the file is the current one, the
    flags are down, and the mixer was given the file or its playback copy,
    which is then the remembered copy.  Or the mixer refused the file: the
    error is raised, yet the file is already the current one and the flags
    are as they were.  Or it failed before the mixer was asked, and the
    player is as before. *)
Theorem load_outcome (audio_path : string) (s : stage) :
  let r := fst (load E G audio_path s) in
  let s' := snd (load E G audio_path s) in
  (exists out,
     (out = audio_path \/ out = copy_of audio_path)
     /\ mixer_calls s' = (mixer_calls s ++ [MixerLoad out])%list
     /\ current_file (self s') = Some audio_path
     /\ converted_file (self s')
        = (if String.eqb out audio_path then None else Some out)
     /\ ((r = Ok tt
          /\ is_playing (self s') = false /\ is_paused (self s') = false)
         \/ ((exists e, r = Raise e)
             /\ is_playing (self s') = is_playing (self s)
             /\ is_paused (self s') = is_paused (self s))))
  \/ ((exists e, r = Raise e)
      /\ mixer_calls s' = mixer_calls s
      /\ self s' = self s).
Proof.
  intros r s'. subst r s'.
  pose proof (load_steps audio_path s) as Hload. cbv beta zeta in Hload.
  rewrite Hload. clear Hload.
  destruct (bool_decide _); cbn [fst snd self mixer_calls];
    [|right; split; [by eexists|by split]].
  destruct (drop_previous E (self s) _) as [[[]|e] w1];
    cbn [fst snd self mixer_calls]; [|right; split; [by eexists|by split]].
  destruct (_convert_for_playback E audio_path w1) as [[out|e] w2] eqn:Hconv;
    apply _convert_for_playback_inv in Hconv as [_ Hout];
    cbn [fst snd self mixer_calls]; [|right; split; [by eexists|by split]].
  left. exists out. split; [by apply Hout|].
  destruct (G _ _); cbn [fst snd self mixer_calls]; do 3 (split; [done|]).
  - right. split; [by eexists|by split].
  - left. by repeat split.
Qed.

(** [play] with no file loaded raises and does not reach the mixer;
    [pause] when nothing is playing does nothing at all. *)
Theorem play_pause_guards (s : stage) :
  (truthy (current_file (self s)) = false ->
   exists s',
     play G s = (Raise (Exception "No audio file loaded"), s')
     /\ mixer_calls s' = mixer_calls s
     /\ is_playing (self s') = false)
  /\ (is_playing (self s) = false -> pause G s = (Ok tt, s)).
Proof.
  unfold play, pause, ptry, pbind, lift, get_self, set_self, mixer, pret,
    praise, print, emit.
  split.
  - intros ->. eexists. split; [reflexivity|]. by split.
  - by intros ->.
Qed.

(** Pause, then play: when the mixer accepts the pause of a playing file, the
    next [play] resumes it with [unpause] and never restarts it with
    [play]. *)
Theorem pause_then_play_resumes (s : stage) :
  is_playing (self s) = true ->
  truthy (current_file (self s)) = true ->
  G s MixerPause = None ->
  mixer_calls (snd (play G (snd (pause G s))))
  = (mixer_calls s ++ [MixerPause; MixerUnpause])%list.
Proof.
  intros Hplaying Hfile Hpause.
  unfold play, pause, ptry, pbind, lift, get_self, set_self, mixer, pret,
    praise, print, emit.
  rewrite Hplaying, Hpause. cbn [snd self current_file set_is_playing
                                  set_is_paused is_paused].
  rewrite Hfile. cbn [mixer_calls].
  answers; cbn [snd mixer_calls]; by rewrite <- app_assoc.
Qed.

Lemma truthy_copy_of (audio_path : string) :
  truthy (Some (copy_of audio_path)) = true.
Proof. unfold copy_of. by destruct (Py.rsplit1_head "." audio_path). Qed.

Lemma ffmpeg_written_by (argv : list string) (w : world) :
  count_events is_ffmpeg (trace (written_by argv w))
  = count_events is_ffmpeg (trace w).
Proof. by rewrite trace_written_by. Qed.

Lemma ffmpeg_snoc (tr : list event) (ev : event) :
  count_events is_ffmpeg (tr ++ [ev])
  = (count_events is_ffmpeg tr + if is_ffmpeg ev then 1 else 0)%nat.
Proof.
  unfold count_events. rewrite List.filter_app, length_app. cbn.
  by destruct (is_ffmpeg ev).
Qed.

(** Loading again the file that is loaded converts it again: [load] first
    removes the playback copy it remembers, so the cache of
    [_convert_for_playback] is never hit and ffmpeg runs once more. *)
Theorem reload_converts_again (audio_path : string) (s : stage) :
  (forall w p, os_remove E w p = None) ->
  current_file (self s) = Some audio_path ->
  converted_file (self s) = Some (copy_of audio_path) ->
  copy_of audio_path <> audio_path ->
  existsb (String.eqb (Py.lower (snd (Py.splitext audio_path))))
          supported_formats = false ->
  audio_path ∈ files (os_world s) ->
  copy_of audio_path ∈ files (os_world s) ->
  count_events is_ffmpeg (trace (os_world (snd (load E G audio_path s))))
  = S (count_events is_ffmpeg (trace (os_world s))).
Proof.
  intros Hrm Hcur Hconv Hne Hext Hin Hcopy.
  unfold load, ptry, pbind, lift, get_self, set_self, mixer, pret, praise,
    print, emit, os_path_exists.
  cbn [os_world files log self]. rewrite bool_decide_eq_true_2 by done.
  unfold drop_previous. cbn [self mixer_calls os_world].
  rewrite Hconv, Hcur, truthy_copy_of.
  rewrite bool_decide_eq_false_2 by congruence.
  cbn [andb negb default].
  unfold try_except, when, bind, os_path_exists, remove_file, ret.
  cbn [files log]. rewrite bool_decide_eq_true_2 by done. rewrite Hrm.
  unfold _convert_for_playback. rewrite Hext. fold (copy_of audio_path).
  unfold try_except, when, bind, os_path_exists, run_checked, print, emit,
    raise, ret.
  cbn [files log set_files].
  rewrite bool_decide_eq_false_2
    by (intros [_ Hx]%elem_of_difference; by apply Hx, elem_of_singleton).
  answers; cbn [snd os_world];
    repeat first [rewrite ffmpeg_log | rewrite ffmpeg_written_by];
    cbn [trace log set_files]; rewrite !ffmpeg_snoc; cbn [is_ffmpeg]; lia.
Qed.

End Player.

(** A session on an M4A file: load, play, pause, resume, stop. *)
Lemma session_coherent_witness :
  Playback.coherent
    (Playback.self
       (Playback.session (Scenario.calm "30.0" (Ok Scenario.hello))
          Studio.quiet_mixer
          [Playback.Load "talk.m4a"; Playback.Play; Playback.Pause;
           Playback.Play; Playback.Stop]
          (Studio.opening {["talk.m4a"]}))).
Proof.
  apply (session_coherent (Scenario.calm "30.0" (Ok Scenario.hello))
           Studio.quiet_mixer).
  reflexivity.
Defined.

(** Two files played one after the other: what is removed is a playback
    copy. *)
Lemma session_removes_only_copies_witness :
  Forall (fun p => Py.endswith p "_playback.mp3" = true)
    (Playback.removed
       (trace
          (Playback.os_world
             (Playback.session (Scenario.calm "30.0" (Ok Scenario.hello))
                Studio.quiet_mixer
                [Playback.Load "talk.m4a"; Playback.Play;
                 Playback.Load "memo.m4a"; Playback.Play]
                (Studio.opening ({["talk.m4a"]} ∪ {["memo.m4a"]})))))).
Proof.
  apply (session_removes_only_copies (Scenario.calm "30.0" (Ok Scenario.hello))
           Studio.quiet_mixer).
  - intros c. discriminate.
  - constructor.
Defined.

(** The second conversion of [talk.m4a] finds the copy of the first. *)
Lemma convert_for_playback_cached_witness :
  let E := Scenario.calm "30.0" (Ok Scenario.hello) in
  let w1 := snd (Playback._convert_for_playback E "talk.m4a"
                   (Scenario.fresh {["talk.m4a"]})) in
  exists w2,
    Playback._convert_for_playback E "talk.m4a" w1
    = (Ok "talk_playback.mp3", w2)
    /\ count_events Playback.is_ffmpeg (trace w2)
       = count_events Playback.is_ffmpeg (trace w1)
    /\ files w2 = files w1.
Proof.
  intros E w1.
  apply (convert_for_playback_cached E "talk.m4a" "talk_playback.mp3"
           (Scenario.fresh {["talk.m4a"]}) w1).
  reflexivity.
Defined.

(** Loading a file that is not on disk. *)
Lemma load_missing_file_witness :
  exists s',
    Playback.load (Scenario.calm "30.0" (Ok Scenario.hello))
      Studio.quiet_mixer "gone.mp3" (Studio.opening ∅)
    = (Raise (Exception "Error loading audio: Audio file not found: gone.mp3"),
       s')
    /\ Playback.self s' = Playback.init.
Proof.
  destruct (load_missing_file (Scenario.calm "30.0" (Ok Scenario.hello))
              Studio.quiet_mixer "gone.mp3" (Studio.opening ∅))
    as (s' & Hload & Hself & _).
  - apply not_elem_of_empty.
  - exists s'. split; [exact Hload|exact Hself].
Defined.

(** A player just built refuses [play] and ignores [pause]. *)
Lemma play_pause_guards_witness :
  (exists s',
     Playback.play Studio.quiet_mixer (Studio.opening ∅)
     = (Raise (Exception "No audio file loaded"), s'))
  /\ Playback.pause Studio.quiet_mixer (Studio.opening ∅)
     = (Ok tt, Studio.opening ∅).
Proof.
  destruct (play_pause_guards Studio.quiet_mixer (Studio.opening ∅))
    as [Hplay Hpause].
  split; [|exact (Hpause eq_refl)].
  destruct (Hplay eq_refl) as (s' & Hraise & _). by exists s'.
Defined.

(** Pausing and resuming [talk.mp3]. *)
Lemma pause_then_play_resumes_witness :
  Playback.mixer_calls
    (snd (Playback.play Studio.quiet_mixer
            (snd (Playback.pause Studio.quiet_mixer Studio.playing))))
  = [Playback.MixerLoad "talk.mp3"; Playback.MixerPlay;
     Playback.MixerPause; Playback.MixerUnpause].
Proof.
  apply (pause_then_play_resumes Studio.quiet_mixer Studio.playing);
    reflexivity.
Defined.

(** Loading [talk.m4a] again runs ffmpeg again. *)
Lemma reload_converts_again_witness :
  count_events Playback.is_ffmpeg
    (trace
       (Playback.os_world
          (snd (Playback.load (Scenario.calm "30.0" (Ok Scenario.hello))
                  Studio.quiet_mixer "talk.m4a" Studio.loaded))))
  = 1%nat.
Proof.
  apply (reload_converts_again (Scenario.calm "30.0" (Ok Scenario.hello))
           Studio.quiet_mixer "talk.m4a" Studio.loaded).
  - reflexivity.
  - reflexivity.
  - reflexivity.
  - discriminate.
  - reflexivity.
  - apply elem_of_union_l, elem_of_singleton. reflexivity.
  - apply elem_of_union_r, elem_of_singleton. reflexivity.
Defined.

(* ===================================================================== *)
(** * More of the transcription service *)
(* ===================================================================== *)

Section Staging.
Import SpeechToTextService.
Context (E : env).

Lemma count_log (kind : event -> bool) (ev : event) (w : world) :
  count_events kind (trace (log ev w))
  = (count_events kind (trace w) + if kind ev then 1 else 0)%nat.
Proof.
  unfold count_events. cbn [trace log].
  rewrite List.filter_app, length_app. cbn. by destruct (kind ev).
Qed.

Lemma count_written_by (kind : event -> bool) (argv : list string)
      (w : world) :
  count_events kind (trace (written_by argv w)) = count_events kind (trace w).
Proof. by rewrite trace_written_by. Qed.

(** Counting the events of one kind in a world built from [log]s. *)
Ltac count_up :=
  cbn [fst snd];
  repeat first
    [ rewrite count_log
    | rewrite count_written_by
    | progress cbn [trace set_files set_storage_client set_bucket_name] ];
  cbn [Kind.is_storage Kind.is_recognition Kind.is_client];
  try lia.

Lemma project_bucket_not_empty (x : option string) :
  fstr x ++ "-audio-transcription" <> "".
Proof. destruct x as [[|c x]|]; discriminate. Qed.

(** What the service holds once [_setup_gcs_bucket] has returned. *)
Lemma _setup_gcs_bucket_fields (w : world) (name : string) :
  fst (_setup_gcs_bucket E w) = Ok name ->
  let w' := snd (_setup_gcs_bucket E w) in
  storage_client w' = true
  /\ bucket_name w' = Some name
  /\ name <> ""
  /\ (bucket_name w = None ->
      name = fstr (project_id E) ++ "-audio-transcription").
Proof.
  unfold _setup_gcs_bucket, bind, when, get_world, emit, of_failure,
    try_except, ret.
  answers; cbn [fst snd]; try discriminate; intros [= <-];
    cbn [log storage_client bucket_name set_storage_client set_bucket_name
         fstr] in *;
    repeat split; try done; try congruence;
    try apply project_bucket_not_empty.
  all: repeat match goal with
       | H : bucket_name _ = _ |- _ => rewrite H in *; clear H
       | H : negb ?b = false |- _ => destruct b; [clear H|discriminate H]
       end; cbn [fstr]; try done.
Qed.

(** A service that holds a client and a name keeps both. *)
Lemma _setup_gcs_bucket_again (w : world) (name : string) :
  storage_client w = true -> bucket_name w = Some name -> name <> "" ->
  let w' := snd (_setup_gcs_bucket E w) in
  storage_client w' = true
  /\ bucket_name w' = Some name
  /\ count_events Kind.is_client (trace w')
     = count_events Kind.is_client (trace w)
  /\ forall name', fst (_setup_gcs_bucket E w) = Ok name' -> name' = name.
Proof.
  intros Hclient Hname Hne.
  unfold _setup_gcs_bucket, bind, when, get_world, emit, of_failure,
    try_except, ret.
  rewrite Hclient. cbn [negb]. rewrite Hname.
  destruct name as [|c name]; [done|]. cbn [log bucket_name fstr].
  rewrite Hname. cbn [fstr].
  answers; cbn [fst snd log storage_client bucket_name];
    (split; [done|]); (split; [done|]);
    (split; [count_up|]); by intros ? [= <-].
Qed.

(** The bucket is set up once.  When [_setup_gcs_bucket] returns, the
    service holds a client and the name it returned, which is not empty and,
    for a service that had no name yet, is the project id followed by
    [-audio-transcription] (the text [None] for a project id that is not
    set).  From then on every call keeps the fields, builds no other client,
    and gives the same name when it returns. *)
Theorem setup_gcs_bucket_remembers (w : world) (name : string) :
  fst (_setup_gcs_bucket E w) = Ok name ->
  let w' := snd (_setup_gcs_bucket E w) in
  storage_client w' = true
  /\ bucket_name w' = Some name
  /\ name <> ""
  /\ (bucket_name w = None ->
      name = fstr (project_id E) ++ "-audio-transcription")
  /\ forall w2,
       storage_client w2 = true -> bucket_name w2 = Some name ->
       let w3 := snd (_setup_gcs_bucket E w2) in
       storage_client w3 = true
       /\ bucket_name w3 = Some name
       /\ count_events Kind.is_client (trace w3)
          = count_events Kind.is_client (trace w2)
       /\ forall name', fst (_setup_gcs_bucket E w2) = Ok name' ->
                        name' = name.
Proof.
  intros Hok w'.
  destruct (_setup_gcs_bucket_fields w name Hok)
    as (Hclient & Hname & Hne & Hproject).
  do 4 (split; [done|]). intros w2 Hc2 Hn2.
  by apply _setup_gcs_bucket_again.
Qed.

(** The names of a staged object.  When [_upload_to_gcs] returns, the blob
    is [audio/<timestamp>_<base name of the file>], where the time stamp is
    the clock read once [_setup_gcs_bucket] has returned; the URI is
    [gs://<bucket of the service>/<blob>]; and after the set-up of the bucket
    the call does one thing, the upload of the file to that blob. *)
Theorem upload_to_gcs_names (audio_path uri blob : string) (w : world) :
  fst (_upload_to_gcs E audio_path w) = Ok (uri, blob) ->
  let w0 := snd (_setup_gcs_bucket E w) in
  let w' := snd (_upload_to_gcs E audio_path w) in
  exists bucket : string,
    bucket_name w0 = Some bucket
    /\ bucket_name w' = Some bucket
    /\ blob = "audio/" ++ Py.str_of_int (time_time E w0) ++ "_"
              ++ Py.basename audio_path
    /\ uri = "gs://" ++ bucket ++ "/" ++ blob
    /\ upload_from_filename E w0 blob audio_path = None
    /\ trace w' = (trace w0 ++ [EvUpload blob audio_path true])%list.
Proof.
  unfold _upload_to_gcs, bind, get_world, emit, of_failure, ret.
  pose proof (_setup_gcs_bucket_fields w) as Hfields.
  destruct (_setup_gcs_bucket E w) as [[name|e] w0]; [|discriminate].
  destruct (Hfields name eq_refl) as (_ & Hname & _). cbn [snd] in Hname.
  destruct (upload_from_filename E w0 _ audio_path) eqn:Hup; [discriminate|].
  cbn [fst snd log bucket_name]. rewrite Hname. cbn [fstr].
  intros [= <- <-]. exists name. by repeat split.
Qed.

(** On the inline transport nothing goes to the object storage: when the
    probed duration is not above 55 seconds, [transcribe_audio] builds no
    storage client, looks up, creates or deletes nothing, uploads nothing and
    starts no long-running job, however it ends. *)
Theorem inline_never_touches_storage
        (audio_path wav_path language_code : string) (d : Py.float)
        (w w1 w2 : world) :
  _convert_to_wav E audio_path w = (Ok wav_path, w1) ->
  _get_audio_duration E wav_path w1 = (Ok d, w2) ->
  Py.gt d Py.float_55 = false ->
  count_events Kind.is_storage
    (trace (snd (transcribe_audio E audio_path language_code w)))
  = count_events Kind.is_storage (trace w).
Proof.
  intros Hconv Hprobe Hgt.
  assert (Hquiet : count_events Kind.is_storage (trace w1)
                   = count_events Kind.is_storage (trace w)).
  { revert Hconv.
    unfold _convert_to_wav, try_except, bind, run_checked, raise, ret.
    answers; intros [= ? <-]; count_up. }
  rewrite _get_audio_duration_total in Hprobe. injection Hprobe as Hd <-.
  unfold transcribe_audio. rewrite Hconv.
  unfold try_except, transcribe_body, bind at 1.
  rewrite _get_audio_duration_total. unfold select_transport.
  rewrite Hd, Hgt.
  unfold sync_body, transcribe_except, combine_transcripts, remove_if_exists,
    when, remove_file, os_path_exists, bind, read_bytes, get_world, emit,
    of_result, ret.
  answers; count_up.
Qed.

(** From here on, [os.remove] does not raise. *)
Hypothesis remove_returns : forall w p, os_remove E w p = None.

(** The removal of a file adds at most its own event to the trace. *)
Lemma remove_if_exists_trace (cond : bool) (path : string) (w : world) :
  exists w',
    remove_if_exists E cond path w = (Ok tt, w')
    /\ (trace w' = trace w \/ trace w' = (trace w ++ [EvRemove path])%list)
    /\ (cond = true -> path ∉ files w').
Proof.
  unfold remove_if_exists, bind, os_path_exists, when, remove_file, ret.
  destruct cond; [|exists w; split; [done|]; split; [by left|done]].
  case_bool_decide as Hin; [|exists w; split; [done|]; split; [by left|done]].
  rewrite remove_returns. eexists. split; [reflexivity|].
  split; [by right|]. intros _. cbn.
  intros [_ Hout]%elem_of_difference. by apply Hout, elem_of_singleton.
Qed.

Lemma recognition_after_removal (w w' : world) (path : string) :
  trace w' = trace w \/ trace w' = (trace w ++ [EvRemove path])%list ->
  count_events Kind.is_recognition (trace w')
  = count_events Kind.is_recognition (trace w).
Proof.
  intros [-> | ->]; [done|]. unfold count_events.
  rewrite List.filter_app, length_app. cbn. lia.
Qed.

(** Failures of the inline path.  When the converted file cannot be read, or
    the backend rejects the request, with [e], the caller gets exactly
    ["Error during transcription: "] followed by [str(e)], and a converted
    file that is not the input is gone; when the file cannot be read, no
    request is sent to the backend. *)
Theorem inline_failure_message (audio_path wav_path language_code : string)
        (w : world) (e : exn) :
  (open_read E w wav_path = Raise e ->
   exists w',
     try_except (sync_body E audio_path wav_path language_code)
                (transcribe_except E audio_path (Some wav_path)) w
     = (Ok ("Error during transcription: " ++ str e), w')
     /\ (wav_path <> audio_path -> wav_path ∉ files w')
     /\ count_events Kind.is_recognition (trace w')
        = count_events Kind.is_recognition (trace w))
  /\ (forall content,
        open_read E w wav_path = Ok content ->
        recognize E (log (EvOpenRead wav_path) w) (sync_config language_code)
                  (AudioContent content) = Raise e ->
        exists w',
          try_except (sync_body E audio_path wav_path language_code)
                     (transcribe_except E audio_path (Some wav_path)) w
          = (Ok ("Error during transcription: " ++ str e), w')
          /\ (wav_path <> audio_path -> wav_path ∉ files w')).
Proof.
  assert (Hcond : wav_path <> audio_path ->
                  negb (String.eqb wav_path audio_path) = true)
    by (intros Hne%String.eqb_neq; by rewrite Hne).
  split.
  - intros Hread.
    unfold try_except, sync_body, transcribe_except, bind at 1, read_bytes.
    rewrite Hread.
    destruct (remove_if_exists_trace
                (negb (String.eqb wav_path audio_path)) wav_path
                (log (EvOpenRead wav_path) w)) as (w' & Hrun & Htrace & Hgone).
    unfold bind. rewrite Hrun. exists w'. split; [reflexivity|].
    split; [auto|].
    rewrite (recognition_after_removal _ _ _ Htrace). by count_up.
  - intros content Hread Hrec.
    unfold try_except, sync_body, transcribe_except, bind at 1, read_bytes.
    rewrite Hread.
    unfold bind at 1, get_world, bind at 1, emit, bind at 1, of_result.
    rewrite Hrec.
    destruct (remove_if_exists_trace
                (negb (String.eqb wav_path audio_path)) wav_path
                (log (EvRecognize (sync_config language_code)
                        (AudioContent content))
                     (log (EvOpenRead wav_path) w)))
      as (w' & Hrun & _ & Hgone).
    unfold bind. rewrite Hrun. exists w'. split; [reflexivity|]. auto.
Qed.

(** Failures of the staged path.  When the bucket or the upload fails with
    [e], the caller gets ["Error during transcription: "] followed by
    [str(e)] and no job is started; when the object is staged and the job
    fails with [e] (it cannot be started, the wait of 300 seconds times out,
    or a segment has no alternative), the caller gets the same text for that
    [e]. *)
Theorem staged_failure_message (audio_path language_code : string)
        (w : world) (e : exn) :
  (forall w1,
     _upload_to_gcs E audio_path w = (Raise e, w1) ->
     exists w',
       _transcribe_long_audio E audio_path language_code w
       = (Ok ("Error during transcription: " ++ str e), w')
       /\ count_events Kind.is_recognition (trace w')
          = count_events Kind.is_recognition (trace w1))
  /\ (forall gcs_uri blob w1 w2,
        _upload_to_gcs E audio_path w = (Ok (gcs_uri, blob), w1) ->
        long_body E audio_path language_code gcs_uri blob w1 = (Raise e, w2) ->
        exists w',
          _transcribe_long_audio E audio_path language_code w
          = (Ok ("Error during transcription: " ++ str e), w')).
Proof.
  split.
  - intros w1 Hup. unfold _transcribe_long_audio. rewrite Hup.
    unfold long_except, bind. rewrite _delete_from_gcs_swallows.
    destruct (remove_if_exists_trace
                (Py.endswith audio_path "_converted.wav") audio_path w1)
      as (w' & Hrun & Htrace & _).
    rewrite Hrun. exists w'. split; [reflexivity|].
    by apply (recognition_after_removal _ _ audio_path).
  - intros gcs_uri blob w1 w2 Hup Hbody. unfold _transcribe_long_audio.
    rewrite Hup, (try_raise _ _ _ _ _ Hbody).
    unfold long_except, bind. rewrite _delete_from_gcs_swallows.
    destruct (remove_if_exists_trace
                (Py.endswith audio_path "_converted.wav") audio_path
                (log (EvBlobDelete blob) w2)) as (w' & Hrun & _).
    rewrite Hrun. by exists w'.
Qed.

(** An input that is itself named [..._converted.wav] is taken for a
    converted copy by the staged path: when such a WAV file is longer than 55
    seconds, [transcribe_audio] returns its text (or its error text) and the
    input file is gone. *)
Theorem staged_path_removes_input_named_converted
        (audio_path language_code : string) (d : Py.float) (w w2 : world) :
  Py.lower (snd (Py.splitext audio_path)) = ".wav" ->
  Py.endswith audio_path "_converted.wav" = true ->
  _get_audio_duration E audio_path w = (Ok d, w2) ->
  Py.gt d Py.float_55 = true ->
  exists s w',
    transcribe_audio E audio_path language_code w = (Ok s, w')
    /\ audio_path ∉ files w'.
Proof.
  intros Hext Hname Hprobe Hgt.
  unfold transcribe_audio, _convert_to_wav. rewrite Hext, String.eqb_refl.
  unfold ret.
  unfold try_except, transcribe_body, bind at 1. rewrite Hprobe.
  unfold select_transport. rewrite Hgt.
  destruct (_transcribe_long_audio_effect E remove_returns audio_path
              language_code w2) as (s & w' & -> & _ & Hgone).
  exists s, w'. split; [reflexivity|]. by apply Hgone.
Qed.

End Staging.

(** The first set-up of a fresh service names the bucket after the
    project. *)
Lemma setup_gcs_bucket_remembers_witness :
  let E := Scenario.calm "90.0" (Ok Scenario.hello) in
  let w' := snd (SpeechToTextService._setup_gcs_bucket E (Scenario.fresh ∅)) in
  storage_client w' = true
  /\ bucket_name w' = Some "proj-audio-transcription".
Proof.
  intros E w'.
  destruct (setup_gcs_bucket_remembers E (Scenario.fresh ∅)
              "proj-audio-transcription" eq_refl)
    as (Hclient & Hname & _).
  split; [exact Hclient|exact Hname].
Defined.

(** The converted talk is staged under the time of the clock and its base
    name. *)
Lemma upload_to_gcs_names_witness :
  let E := Scenario.calm "90.0" (Ok Scenario.hello) in
  let w' := snd (SpeechToTextService._upload_to_gcs E
                   "notes_data/audio/talk_converted.wav" (Scenario.fresh ∅)) in
  bucket_name w' = Some "proj-audio-transcription"
  /\ trace w'
     = (trace (snd (SpeechToTextService._setup_gcs_bucket E (Scenario.fresh ∅)))
        ++ [EvUpload "audio/1700000000_talk_converted.wav"
              "notes_data/audio/talk_converted.wav" true])%list.
Proof.
  intros E w'.
  destruct (upload_to_gcs_names E "notes_data/audio/talk_converted.wav"
              "gs://proj-audio-transcription/audio/1700000000_talk_converted.wav"
              "audio/1700000000_talk_converted.wav" (Scenario.fresh ∅))
    as (bucket & Hbefore & Hafter & _ & _ & _ & Htrace).
  - vm_compute. reflexivity.
  - split; [|exact Htrace]. unfold w'. rewrite Hafter, <- Hbefore. reflexivity.
Defined.

(** A talk of thirty seconds goes inline and leaves the storage alone. *)
Lemma inline_never_touches_storage_witness :
  let E := Scenario.calm "30.0" (Ok Scenario.hello) in
  count_events Kind.is_storage
    (trace (snd (SpeechToTextService.transcribe_audio E "talk.mp3" "auto"
                   (Scenario.fresh {["talk.mp3"]}))))
  = 0%nat.
Proof.
  intros E.
  apply (inline_never_touches_storage E "talk.mp3" "talk_converted.wav" "auto"
           Scenario.float_30 (Scenario.fresh {["talk.mp3"]})
           (snd (SpeechToTextService._convert_to_wav E "talk.mp3"
                   (Scenario.fresh {["talk.mp3"]})))
           (snd (SpeechToTextService._get_audio_duration E "talk_converted.wav"
                   (snd (SpeechToTextService._convert_to_wav E "talk.mp3"
                           (Scenario.fresh {["talk.mp3"]})))))).
  - reflexivity.
  - reflexivity.
  - reflexivity.
Defined.

(** The backend rejects the inline request for want of quota. *)
Lemma inline_failure_message_witness :
  let E := Scenario.calm "30.0" (Raise Studio.quota) in
  exists w',
    try_except
      (SpeechToTextService.sync_body E "talk.mp3" "talk_converted.wav" "auto")
      (SpeechToTextService.transcribe_except E "talk.mp3"
         (Some "talk_converted.wav"))
      (Scenario.fresh {["talk_converted.wav"]})
    = (Ok "Error during transcription: 429 Quota exceeded", w')
    /\ ("talk_converted.wav" <> "talk.mp3"
        -> "talk_converted.wav" ∉ files w').
Proof.
  intros E.
  apply (proj2 (inline_failure_message E (fun _ _ => eq_refl) "talk.mp3"
                  "talk_converted.wav" "auto"
                  (Scenario.fresh {["talk_converted.wav"]}) Studio.quota)
           []); reflexivity.
Defined.

(** The long-running job fails for want of quota. *)
Lemma staged_failure_message_witness :
  let E := Scenario.calm "90.0" (Raise Studio.quota) in
  exists w',
    SpeechToTextService._transcribe_long_audio E "talk_converted.wav" "auto"
      (Scenario.fresh {["talk_converted.wav"]})
    = (Ok "Error during transcription: 429 Quota exceeded", w').
Proof.
  intros E.
  eapply (proj2 (staged_failure_message E (fun _ _ => eq_refl)
                   "talk_converted.wav" "auto"
                   (Scenario.fresh {["talk_converted.wav"]}) Studio.quota)).
  - vm_compute. reflexivity.
  - vm_compute. reflexivity.
Defined.

(** A recording of ninety seconds that the user named
    [talk_converted.wav] is removed by its transcription. *)
Lemma staged_path_removes_input_named_converted_witness :
  let E := Scenario.calm "90.0" (Ok Scenario.hello) in
  exists s w',
    SpeechToTextService.transcribe_audio E "talk_converted.wav" "auto"
      (Scenario.fresh {["talk_converted.wav"]}) = (Ok s, w')
    /\ "talk_converted.wav" ∉ files w'.
Proof.
  intros E.
  apply (staged_path_removes_input_named_converted E (fun _ _ => eq_refl)
           "talk_converted.wav" "auto" Scenario.float_90
           (Scenario.fresh {["talk_converted.wav"]})
           (snd (SpeechToTextService._get_audio_duration E "talk_converted.wav"
                   (Scenario.fresh {["talk_converted.wav"]}))));
    reflexivity.
Defined.

(* ===================================================================== *)
(** * More of the summarizer *)
(* ===================================================================== *)

Section Titles.
Import SummarizerService.
Context (E : env).

Lemma backend_calls_log (ev : event) (w : world) :
  backend_calls (trace (log ev w))
  = (backend_calls (trace w) + if is_backend_call ev then 1 else 0)%nat.
Proof.
  unfold backend_calls, count_events. cbn [trace log].
  rewrite List.filter_app, length_app. cbn. by destruct (is_backend_call ev).
Qed.

(** [summarize] never raises.  On an input that the guard lets through it
    calls the backend exactly once, with the prompt built from the whole
    transcription, and an answer of the backend is returned as it is. *)
Theorem summarize_calls_once (transcription : string) (w : world) :
  exists (s : string) (w' : world),
    summarize E transcription w = (Ok s, w')
    /\ (~ skips_summary transcription ->
        trace w'
        = (trace w ++ [EvGenerateContent (summary_prompt transcription)])%list
        /\ backend_calls (trace w') = S (backend_calls (trace w))
        /\ forall text,
             generate_content E w (summary_prompt transcription) = Ok text ->
             s = text).
Proof.
  unfold summarize. destruct (_ || _) eqn:Hguard.
  - exists no_summary, w. split; [reflexivity|]. intros Hskip.
    destruct Hskip. by apply skips_summary_guard.
  - unfold try_except. rewrite generate_text_unfold.
    destruct (generate_content E w _) as [text|e]; do 2 eexists;
      (split; [reflexivity|]); intros _;
      (split; [reflexivity|]); rewrite backend_calls_log; cbn;
      (split; [lia|]); by intros ? [= <-].
Qed.

Lemma slice_to_empty (n : nat) (s : string) :
  Py.slice_to (S n) s = "" <-> s = "".
Proof. destruct s; cbn; split; congruence. Qed.

Lemma prefix_slice_to (p s : string) (n : nat) :
  (String.length p <= n)%nat ->
  String.prefix p (Py.slice_to n s) = String.prefix p s.
Proof.
  revert s n. induction p as [|c p IH]; intros s n Hlen.
  - by destruct (Py.slice_to n s), s.
  - destruct n as [|n]; [cbn in Hlen; lia|]. destruct s as [|a s]; [done|].
    cbn [Py.slice_to String.prefix]. destruct (ascii_dec c a); [|done].
    apply IH. cbn in Hlen. lia.
Qed.

(** The title is made from the first 500 characters only: two transcriptions
    that agree on them get the same prompt, the same title and the same
    effects. *)
Theorem generate_title_reads_500 (t1 t2 : string) (w : world) :
  Py.slice_to 500 t1 = Py.slice_to 500 t2 ->
  generate_title E t1 w = generate_title E t2 w.
Proof.
  intros Hsame. unfold generate_title, title_prompt, Py.startswith.
  rewrite <- (prefix_slice_to "Error" t1 500), <- (prefix_slice_to "Error" t2 500)
    by (cbn; lia).
  assert (Hempty : String.eqb t1 "" = String.eqb t2 "").
  { destruct (String.eqb_spec t1 ""), (String.eqb_spec t2 ""); try done;
      subst; exfalso.
    - symmetry in Hsame. by apply slice_to_empty in Hsame.
    - by apply slice_to_empty in Hsame. }
  by rewrite Hempty, Hsame.
Qed.

Lemma remove_char_absent (c : ascii) (s : string) :
  Py.contains c s = false -> Py.remove_char c s = s.
Proof.
  induction s as [|a s IH]; [done|]. cbn.
  intros [Ha Hs]%orb_false_elim. rewrite Ha. by rewrite IH.
Qed.

(** An answer of the backend that has no quote in it, no white space around
    it and at most 50 characters is the title, as it is. *)
Theorem generate_title_verbatim (transcription text : string) (w : world) :
  transcription <> "" ->
  Py.startswith transcription "Error" = false ->
  generate_content E w (title_prompt transcription) = Ok text ->
  Py.strip text = text ->
  Py.contains (ascii_of_nat 34) text = false ->
  Py.contains "'" text = false ->
  (String.length text <= 50)%nat ->
  fst (generate_title E transcription w) = Ok text.
Proof.
  intros Hne%String.eqb_neq Herr Hgen Hstrip Hdq Hsq Hlen.
  unfold generate_title. rewrite Hne, Herr. cbn [orb].
  unfold try_except, bind. rewrite generate_text_unfold, Hgen.
  unfold clean_title, truncate_title. rewrite Hstrip.
  rewrite (remove_char_absent _ _ Hdq), (remove_char_absent _ _ Hsq).
  destruct (Nat.ltb_spec 50 (String.length text)); [lia|reflexivity].
Qed.

End Titles.

(** A greeting is summarized with one call to the backend. *)
Lemma summarize_calls_once_witness :
  let E := Scenario.calm "30.0" (Ok Scenario.hello) in
  exists (s : string) (w' : world),
    SummarizerService.summarize E "Hello world this is a test"
      (Scenario.fresh ∅) = (Ok s, w')
    /\ SummarizerService.backend_calls (trace w') = 1%nat
    /\ s = "A summary".
Proof.
  intros E.
  destruct (summarize_calls_once E "Hello world this is a test"
              (Scenario.fresh ∅)) as (s & w' & Hrun & Hcalls).
  exists s, w'. split; [exact Hrun|].
  destruct Hcalls as (_ & Hone & Htext).
  - intros [Hempty | [Herr | Hsilent]]; discriminate.
  - split; [exact Hone|]. by apply Htext.
Defined.

(** Two talks that differ after the first 500 characters get one title. *)
Lemma generate_title_reads_500_witness :
  let E := Scenario.calm "30.0" (Ok Scenario.hello) in
  SummarizerService.generate_title E (Studio.long_talk ++ " and so on")
    (Scenario.fresh ∅)
  = SummarizerService.generate_title E (Studio.long_talk ++ " or not")
      (Scenario.fresh ∅).
Proof.
  intros E.
  apply (generate_title_reads_500 E (Studio.long_talk ++ " and so on")
           (Studio.long_talk ++ " or not") (Scenario.fresh ∅)).
  vm_compute. reflexivity.
Defined.

(** A clean answer of the backend is the title. *)
Lemma generate_title_verbatim_witness :
  let E := Scenario.calm "30.0" (Ok Scenario.hello) in
  fst (SummarizerService.generate_title E "Hello world this is a test"
         (Scenario.fresh ∅))
  = Ok "A summary".
Proof.
  intros E.
  apply (generate_title_verbatim E "Hello world this is a test" "A summary"
           (Scenario.fresh ∅)).
  - discriminate.
  - reflexivity.
  - reflexivity.
  - reflexivity.
  - reflexivity.
  - reflexivity.
  - cbn. lia.
Defined.

(* ===================================================================== *)
(** * The processing thread and the configuration *)
(* ===================================================================== *)

Section Thread.
Import ProcessAudioThread.
Context (E : env).

Lemma summarize_returns (transcription : string) (w : world) :
  exists (s : string) (w' : world),
    SummarizerService.summarize E transcription w = (Ok s, w')
    /\ (SummarizerService.backend_calls (trace w')
        <= S (SummarizerService.backend_calls (trace w)))%nat
    /\ (Py.startswith transcription "Error" = true ->
        s = "No summary available." /\ w' = w).
Proof.
  unfold SummarizerService.summarize, try_except.
  destruct (Py.startswith transcription "Error") eqn:Herr.
  - rewrite orb_true_r. cbn [orb]. do 2 eexists.
    split; [reflexivity|]. split; [lia|done].
  - destruct (_ || _); [do 2 eexists; split; [reflexivity|]; split; [lia|done]|].
    rewrite generate_text_unfold.
    destruct (generate_content E w _); do 2 eexists;
      (split; [reflexivity|]); rewrite backend_calls_log; cbn;
      (split; [lia|done]).
Qed.

Lemma get_duration_returns (audio_path : string) (w : world) :
  exists d, AudioPlayer.get_duration E audio_path w
            = (Ok d, snd (AudioPlayer.get_duration E audio_path w)).
Proof.
  unfold AudioPlayer.get_duration, try_except, bind, get_world, emit,
    of_result, print, emit, run_checked, float_of_str, raise, ret.
  answers; by eexists.
Qed.

(** A failed conversion reaches the user as the wrong error: whenever
    [_convert_to_wav] raises, the thread emits [error] with the text of the
    [UnboundLocalError] of the handler, not with the diagnostic of the
    conversion. *)
Theorem thread_reports_unbound_local (audio_path custom_name : string)
        (w w2 : world) (e : exn) :
  SpeechToTextService._convert_to_wav E audio_path
    (snd (AudioPlayer.get_duration E audio_path w)) = (Raise e, w2) ->
  run_thread E audio_path custom_name w
  = (Ok (error (str (UnboundLocalError "wav_path"))), w2).
Proof.
  intros Hconv. unfold run_thread, try_except, bind at 1.
  destruct (get_duration_returns audio_path w) as [d ->].
  unfold bind at 1.
  by rewrite (transcribe_audio_unbound E _ _ _ _ _ Hconv).
Qed.

(** What becomes of a transcript.  Once the duration and the transcript are
    there, the thread emits [finished] with them.  A custom name is the title
    and the title is then not asked from the backend; a transcript that is an
    error text gets the summary ["No summary available."] and, without a
    custom name, the title ["Untitled Note"], and the backend is not called
    at all. *)
Theorem thread_finishes (audio_path custom_name transcription : string)
        (d : Py.float) (w w1 w2 : world) :
  AudioPlayer.get_duration E audio_path w = (Ok d, w1) ->
  SpeechToTextService.transcribe_audio E audio_path
    SpeechToTextService.transcribe_audio_default w1 = (Ok transcription, w2) ->
  exists (summary title : string) (w' : world),
    run_thread E audio_path custom_name w
    = (Ok (finished transcription summary title d), w')
    /\ (custom_name <> "" ->
        title = custom_name
        /\ (SummarizerService.backend_calls (trace w')
            <= S (SummarizerService.backend_calls (trace w2)))%nat)
    /\ (Py.startswith transcription "Error" = true ->
        summary = "No summary available."
        /\ (custom_name = "" -> title = "Untitled Note")
        /\ w' = w2).
Proof.
  intros Hdur Htrans.
  unfold run_thread, try_except, bind at 1. rewrite Hdur.
  unfold bind at 1. rewrite Htrans. unfold bind at 1.
  destruct (summarize_returns transcription w2)
    as (summary & w3 & Hsum & Hbound & Hskip).
  rewrite Hsum.
  destruct (String.eqb_spec custom_name "") as [-> | Hname]; cbn [negb].
  - unfold bind.
    destruct (generate_title_cases E transcription w3)
      as [[w4 Htitle]|(text & w4 & _ & Htitle)]; rewrite Htitle;
      do 3 eexists; (split; [reflexivity|]); (split; [done|]);
      intros Herr; destruct (Hskip Herr) as [-> ->];
      revert Htitle;
      unfold SummarizerService.generate_title, SummarizerService.default_title;
      rewrite Herr, orb_true_r; intros Heq; inversion Heq;
      repeat split; congruence.
  - unfold bind, ret. do 3 eexists. split; [reflexivity|].
    split; [by split|]. intros Herr. destruct (Hskip Herr) as [-> ->].
    by repeat split.
Qed.

End Thread.

(** ffmpeg rejects the recording: the user is shown the error of the
    handler. *)
Lemma thread_reports_unbound_local_witness :
  let E := Scenario.outside (Scenario.ffmpeg_fails "Invalid data") None
             (Ok Scenario.hello) (Ok "A summary") (Ok MutagenNone) in
  fst (ProcessAudioThread.run_thread E "talk.mp3" ""
         (Scenario.fresh {["talk.mp3"]}))
  = Ok (ProcessAudioThread.error (str (UnboundLocalError "wav_path"))).
Proof.
  intros E.
  erewrite (thread_reports_unbound_local E "talk.mp3" ""
              (Scenario.fresh {["talk.mp3"]})).
  - reflexivity.
  - vm_compute. reflexivity.
Defined.

(** A recording of thirty seconds with a name of the user's. *)
Lemma thread_finishes_witness :
  let E := Scenario.calm "30.0" (Ok Scenario.hello) in
  exists (summary title : string) (w' : world),
    ProcessAudioThread.run_thread E "talk.mp3" "Standup"
      (Scenario.fresh {["talk.mp3"]})
    = (Ok (ProcessAudioThread.finished "Hello world this is a test" summary
             title Scenario.float_30), w')
    /\ title = "Standup".
Proof.
  intros E.
  destruct (thread_finishes E "talk.mp3" "Standup"
              "Hello world this is a test" Scenario.float_30
              (Scenario.fresh {["talk.mp3"]})
              (snd (AudioPlayer.get_duration E "talk.mp3"
                      (Scenario.fresh {["talk.mp3"]})))
              (snd (SpeechToTextService.transcribe_audio E "talk.mp3"
                      SpeechToTextService.transcribe_audio_default
                      (snd (AudioPlayer.get_duration E "talk.mp3"
                              (Scenario.fresh {["talk.mp3"]}))))))
    as (summary & title & w' & Hrun & Hname & _).
  - vm_compute. reflexivity.
  - vm_compute. reflexivity.
  - exists summary, title, w'. split; [exact Hrun|].
    apply Hname. discriminate.
Defined.

Section Configuration.
Import main.

(** [check_environment] says yes exactly when there is nothing to report,
    and that is exactly when both variables are set to something and the
    credentials file exists; a missing variable is reported before the file
    is looked at. *)
Theorem check_environment_sound (getenv : string -> option string)
        (fs : gset string) :
  let creds := "GOOGLE_APPLICATION_CREDENTIALS" in
  let project := "GOOGLE_CLOUD_PROJECT_ID" in
  (fst (check_environment getenv fs) = true
   <-> snd (check_environment getenv fs) = [])
  /\ (fst (check_environment getenv fs) = true
      <-> unset getenv creds = false
          /\ unset getenv project = false
          /\ forall path, getenv creds = Some path -> path ∈ fs)
  /\ (unset getenv creds = true \/ unset getenv project = true ->
      check_environment getenv fs
      = (false, List.filter (unset getenv) required_vars)).
Proof.
  intros creds project. subst creds project.
  unfold check_environment, required_vars. cbn [List.filter]. unfold unset.
  destruct (getenv "GOOGLE_APPLICATION_CREDENTIALS") as [[|c path]|],
           (getenv "GOOGLE_CLOUD_PROJECT_ID") as [[|c' id]|];
    try case_bool_decide; cbn [fst snd].
  all: split; [split; congruence|].
  all: split; [|first [by intros [|] | reflexivity]].
  all: split; [try discriminate|try (by intros (? & ? & ?))].
  - intros _. repeat split. by intros ? [= <-].
  - intros (_ & _ & Hfile). exfalso. eauto.
Qed.

End Configuration.

(** Both variables are set and the key file is there. *)
Lemma check_environment_sound_witness :
  main.check_environment Studio.configured {["key.json"]} = (true, []).
Proof.
  destruct (check_environment_sound Studio.configured {["key.json"]})
    as (Hreport & Hyes & _).
  apply injective_projections; cbn [fst snd].
  - apply Hyes. repeat split. intros path [= <-]. by apply elem_of_singleton.
  - apply Hreport, Hyes. repeat split. intros path [= <-].
    by apply elem_of_singleton.
Defined.
